(** * The bootstrap launcher [app_launcher.cpp]

    A shallow embedding of [src/app_launcher/app_launcher.cpp]: the launcher
    probes the Python interpreter, installs the requirements when the
    marker files under [<executable directory>/temp] ask for it, and then
    runs [src/main.py] with the command-line arguments it received. The
    earlier variant [src/app_launcher.cpp], without markers, is embedded
    in the module [Plain].

    Text is [string]; the directory [temp] is a finite map from file names
    to file contents; the outside world (the commands run through [popen]
    and [system]) is an oracle indexed by the number of commands already
    run; every visible action is recorded in a trace of events.

    The embedding follows the branch of the source that is compiled on
    Unix-like systems (path separator [/]), takes [temp], when it exists,
    to be a directory of regular files that can be opened, and leaves out
    input and output errors of the streams. What the command interpreter
    behind [system] does with a command line is not modelled: the
    statements on the launch are statements on the command line. *)

From Stdlib Require Import ZArith Ascii String List Bool Lia.
From stdpp Require Import base option gmap strings list.

Local Open Scope Z_scope.

(** ** Text utilities *)

Module Text.

Definition newline : ascii := ascii_of_nat 10.

(** [std::endl] and ["\n"]: one line-feed character. *)
Definition nl : string := String newline "".

(** [std::isspace] on an [unsigned char] in the default "C" locale:
    space, and the control characters 9 (tab) to 13 (carriage return). *)
Definition isspace (ch : ascii) : bool :=
  let n := N_of_ascii ch in
  (n =? 32)%N || ((9 <=? n)%N && (n <=? 13)%N).

(** [std::find_if(s.begin(), s.end(), !isspace)] followed by an erase of
    everything before the position found. *)
Fixpoint erase_leading (s : string) : string :=
  match s with
  | EmptyString => EmptyString
  | String ch rest => if isspace ch then erase_leading rest else s
  end.

(** The same search through the reverse iterators [rbegin .. rend]; the
    erase of [base() .. end()] drops the spaces met before the first
    character that is not a space, counted from the end. *)
Definition erase_trailing (s : string) : string :=
  String.rev (erase_leading (String.rev s)).

(** [trim]: first the leading blanks are erased, then the trailing ones. *)
Definition trim (s : string) : string :=
  erase_trailing (erase_leading s).

(** [std::getline(infile, line)] on a freshly opened stream: the characters
    before the first line feed (the line feed is consumed and dropped); the
    whole contents when there is none; the empty string on an empty file. *)
Fixpoint getline (contents : string) : string :=
  match contents with
  | EmptyString => EmptyString
  | String ch rest =>
      if Ascii.eqb ch newline then EmptyString else String ch (getline rest)
  end.

(** No line feed anywhere in the text. *)
Fixpoint one_line (s : string) : bool :=
  match s with
  | EmptyString => true
  | String ch rest => negb (Ascii.eqb ch newline) && one_line rest
  end.

Definition is_empty (s : string) : bool :=
  match s with EmptyString => true | _ => false end.

(** The text starts with a character that is not a blank, or is empty. *)
Definition clean_start (s : string) : bool :=
  match s with
  | EmptyString => true
  | String ch _ => negb (isspace ch)
  end.

End Text.

Import Text.


(** ** Paths *)

(** Whether a path ends with the directory separator. *)
Fixpoint ends_with_separator (p : string) : bool :=
  match p with
  | EmptyString => false
  | String ch EmptyString => Ascii.eqb ch (ascii_of_nat 47)
  | String _ rest => ends_with_separator rest
  end.

(** [fs::path::operator/] with a relative right-hand side: a separator is
    added unless the left-hand side is empty or already ends with one. *)
Definition path_append (p q : string) : string :=
  if is_empty p then q
  else if ends_with_separator p then p +:+ q
  else p +:+ "/" +:+ q.

Infix "</>" := path_append (at level 59, left associativity).

(** [operator<<] on an [fs::path] prints it through [std::quoted]: between
    double quotes, with a backslash before every double quote and backslash. *)
Definition dquote : ascii := ascii_of_nat 34.
Definition backslash : ascii := ascii_of_nat 92.

Fixpoint escaped (s : string) : string :=
  match s with
  | EmptyString => EmptyString
  | String ch rest =>
      if Ascii.eqb ch dquote || Ascii.eqb ch backslash
      then String backslash (String ch (escaped rest))
      else String ch (escaped rest)
  end.

Definition quoted (p : string) : string :=
  String dquote (escaped p +:+ String dquote "").

(** ** The world *)

(** What the launcher does that can be seen from outside, in the order it
    does it. Commands carry the answer the world gave. *)
Inductive event : Type :=
| Popen (cmd : string) (pipe : option string)
| System (cmd : string) (status : Z)
| Exists (path : string) (found : bool)
| CreateDirectory (path : string)
| ReadLine (path : string)
| WriteFile (path : string) (contents : string)
| Stdout (text : string)
| Stderr (text : string).

(** The outside world. [popen_result n cmd] is what the [n]-th command run
    by the launcher yields when it is [popen(cmd, "r")]: [None] when
    [popen] returns a null pointer, otherwise the bytes the command writes
    to its standard output. [system_result n cmd] is the value returned by
    [system(cmd)]. [exe_dir] is the directory of the running executable.
    The commands are taken not to touch the directory [temp]. *)
Record Env : Type := {
  exe_dir : string;
  popen_result : nat -> string -> option string;
  system_result : nat -> string -> Z
}.

(** The state threaded through the launcher: the number of commands run so
    far, the directory [<exe_dir>/temp] ([None] when it does not exist,
    otherwise its regular files by name), and the events so far. *)
Record State : Type := {
  calls : nat;
  temp : option (gmap string string);
  trace : list event
}.

Definition emit (e : event) (st : State) : State :=
  {| calls := calls st; temp := temp st; trace := trace st ++ [e] |}.

(** Contents of the file [name] of the directory, if both exist. *)
Definition file_contents (dir : option (gmap string string)) (name : string)
  : option string :=
  match dir with
  | Some files => files !! name
  | None => None
  end.

(** A small state monad. *)
Definition M (A : Type) : Type := State -> A * State.

Definition ret {A} (a : A) : M A := fun st => (a, st).

Definition bind {A B} (c : M A) (k : A -> M B) : M B :=
  fun st => let (a, st') := c st in k a st'.

Declare Scope launcher_scope.
Delimit Scope launcher_scope with launcher.
Notation "'let*' x ':=' c 'in' k" := (bind c (fun x => k))
  (at level 10, x name, c at level 100, k at level 200) : launcher_scope.
Notation "c '>>' k" := (bind c (fun _ => k))
  (at level 100, k at level 200, right associativity) : launcher_scope.
Local Open Scope launcher_scope.

Definition cout (text : string) : M unit :=
  fun st => (tt, emit (Stdout text) st).

Definition cerr (text : string) : M unit :=
  fun st => (tt, emit (Stderr text) st).

(** ** Reading a pipe *)

(** The character that ends a C string. *)
Definition nul : ascii := ascii_of_nat 0.

(** The loop of [exec]. Each [fgets(buffer.data(), 128, pipe)] takes at
    most 127 characters and stops after a line feed; [result +=
    buffer.data()] then appends the buffer as a C string, that is up to
    its first NUL character. [room] is the number of characters the
    current buffer can still take (0 when it is full and the next
    character opens a new buffer); [cut] tells that a NUL character was
    met in the current buffer, so that the rest of it is lost. *)
Fixpoint gather_from (room : nat) (cut : bool) (output : string) : string :=
  match output with
  | EmptyString => EmptyString
  | String ch rest =>
      let room_now := match room with O => 127%nat | _ => room end in
      let cut_now := match room with O => false | _ => cut end in
      if Ascii.eqb ch nul then gather_from (pred room_now) true rest
      else if Ascii.eqb ch newline then
        if cut_now then gather_from 127 false rest
        else String ch (gather_from 127 false rest)
      else if cut_now then gather_from (pred room_now) true rest
      else String ch (gather_from (pred room_now) false rest)
  end.

Definition gather (output : string) : string := gather_from 127 false output.

(** No NUL character anywhere in the text. *)
Fixpoint no_nul (s : string) : bool :=
  match s with
  | EmptyString => true
  | String ch rest => negb (Ascii.eqb ch nul) && no_nul rest
  end.

(** ** The launcher *)

Section Launcher.

Variable env : Env.

(** [get_executable_directory]: the parent directory of the executable's
    own path, as the operating system reports it. *)
Definition get_executable_directory : string := exe_dir env.

(** [fs::exists(temp_folder)] on the directory [temp] itself. *)
Definition folder_exists (path : string) : M bool :=
  fun st =>
    let found := match temp st with Some _ => true | None => false end in
    (found, emit (Exists path found) st).

(** [fs::create_directory(temp_folder)]: an empty directory appears. *)
Definition create_directory (path : string) : M unit :=
  fun st =>
    let dir := match temp st with Some files => Some files | None => Some ∅ end in
    (tt, {| calls := calls st; temp := dir;
            trace := trace st ++ [CreateDirectory path] |}).

(** [fs::exists(temp_folder / name)] on a file of the directory. *)
Definition file_exists (folder name : string) : M bool :=
  fun st =>
    let found :=
      match file_contents (temp st) name with Some _ => true | None => false end in
    (found, emit (Exists (folder </> name) found) st).

(** [std::ifstream infile(path); std::getline(infile, line)]: the first
    line of the file; a stream that could not be opened leaves the line
    empty. *)
Definition read_first_line (folder name : string) : M string :=
  fun st =>
    let line :=
      match file_contents (temp st) name with
      | Some contents => getline contents
      | None => EmptyString
      end in
    (line, emit (ReadLine (folder </> name)) st).

(** [std::ofstream outfile(path); outfile << text]: the file is created or
    truncated and holds exactly [text] once the stream is closed. *)
Definition write_file (folder name text : string) : M unit :=
  fun st =>
    let dir :=
      match temp st with
      | Some files => Some (<[name := text]> files)
      | None => None
      end in
    (tt, {| calls := calls st; temp := dir;
            trace := trace st ++ [WriteFile (folder </> name) text] |}).

(** [get_temp_folder_path] *)
Definition get_temp_folder_path : M string :=
  let temp_folder := get_executable_directory </> "temp" in
  let* found := folder_exists temp_folder in
  if negb found then
    create_directory temp_folder >>
    cout ("Created temp folder at: " +:+ quoted temp_folder +:+ nl) >>
    ret temp_folder
  else ret temp_folder.

(** [exec]: [None] stands for the [std::runtime_error] thrown when [popen]
    fails; otherwise the text gathered from the pipe by the [fgets] loop is
    returned. The event keeps the answer of the world. *)
Definition exec (cmd : string) : M (option string) :=
  fun st =>
    let pipe := popen_result env (calls st) cmd in
    let result :=
      match pipe with
      | Some output => Some (gather output)
      | None => None
      end in
    (result, {| calls := S (calls st); temp := temp st;
                trace := trace st ++ [Popen cmd pipe] |}).

(** [system(cmd)] from the C library. *)
Definition system (cmd : string) : M Z :=
  fun st =>
    let status := system_result env (calls st) cmd in
    (status, {| calls := S (calls st); temp := temp st;
                trace := trace st ++ [System cmd status] |}).

(** [get_git_commit_hash] *)
Definition get_git_commit_hash : M string :=
  let* pipe := exec "git rev-parse HEAD" in
  match pipe with
  | Some output =>
      let commit_hash := trim output in
      cout ("Current git commit hash: " +:+ commit_hash +:+ nl) >>
      ret commit_hash
  | None =>
      cerr ("Error: Failed to get git commit hash." +:+ nl) >>
      ret EmptyString
  end.

(** [is_first_time_installed] *)
Definition is_first_time_installed (temp_folder : string) : M bool :=
  let* found := file_exists temp_folder ".installed" in
  let first_time := negb found in
  cout ("Is first time installed? " +:+ (if first_time then "Yes" else "No") +:+ nl) >>
  ret first_time.

(** [git_has_updated] *)
Definition git_has_updated (temp_folder : string) : M bool :=
  let* current_commit_hash := get_git_commit_hash in
  if is_empty current_commit_hash then
    cout ("No git repository found or failed to get commit hash." +:+ nl) >>
    ret false
  else
    let* found := file_exists temp_folder ".git_last_commit" in
    if negb found then
      cout ("No last commit hash found. Assuming first-time install or update." +:+ nl) >>
      ret true
    else
      let* line := read_first_line temp_folder ".git_last_commit" in
      let last_commit_hash := trim line in
      cout ("last_commit_hash = " +:+ last_commit_hash +:+
            " current_commit_hash = " +:+ current_commit_hash +:+ nl) >>
      let has_updated := negb (String.eqb last_commit_hash current_commit_hash) in
      cout ("Has git updated? " +:+ (if has_updated then "Yes" else "No") +:+ nl) >>
      ret has_updated.

(** [update_git_commit_hash] *)
Definition update_git_commit_hash (temp_folder : string) : M unit :=
  let* current_commit_hash := get_git_commit_hash in
  write_file temp_folder ".git_last_commit" current_commit_hash >>
  cout ("Updated git commit hash to: " +:+ current_commit_hash +:+ nl).

(** [mark_as_installed] *)
Definition mark_as_installed (temp_folder : string) : M unit :=
  write_file temp_folder ".installed" "installed" >>
  cout ("Marked application as installed." +:+ nl).

(** The condition of the [if] of step 2 of [main],
    [is_first_time_installed(temp_folder) || git_has_updated(temp_folder)]:
    the right operand is evaluated only when the left one is false. *)
Definition should_install (temp_folder : string) : M bool :=
  let* first_time := is_first_time_installed temp_folder in
  if first_time then ret true else git_has_updated temp_folder.

(** The command line of step 3 of [main]: the loop
    [for (int i = 1; i < argc; ++i)] appends a space and [argv[i]]. *)
Definition python_script : string :=
  get_executable_directory </> "src" </> "main.py".

Definition python_command (argv : list string) : string :=
  fold_left (fun command arg => (command +:+ " ") +:+ arg)
            (drop 1 argv) ("python " +:+ python_script).

Definition requirements_file : string :=
  get_executable_directory </> "src" </> "requirements.txt".

Definition pip_command : string := "pip install -r " +:+ requirements_file.

(** Step 3 of [main]: launch the script and turn its status into the exit
    status of the launcher. *)
Definition launch (argv : list string) : M Z :=
  let command := python_command argv in
  cout ("Launching Python script: " +:+ command +:+ nl) >>
  let* python_result := system command in
  if negb (python_result =? 0) then
    cerr ("Error: Python script execution failed." +:+ nl) >>
    ret 1
  else
    cout ("Python script executed successfully." +:+ nl) >>
    ret 0.

(** [main]; the value returned is the exit status of the process. *)
Definition main (argv : list string) : M Z :=
  let* probe := exec "python --version" in
  match probe with
  | None =>
      cerr ("Error: Python is not installed or not in PATH." +:+ nl) >>
      ret 1
  | Some python_version =>
      cout ("Python is installed: " +:+ python_version) >>
      let* temp_folder := get_temp_folder_path in
      let* install := should_install temp_folder in
      if install then
        cout ("Installing requirements..." +:+ nl) >>
        let* pip_result := system pip_command in
        if negb (pip_result =? 0) then
          cerr ("Error: Failed to install requirements." +:+ nl) >>
          ret 1
        else
          mark_as_installed temp_folder >>
          update_git_commit_hash temp_folder >>
          launch argv
      else
        cout ("Requirements already installed. Skipping installation..." +:+ nl) >>
        launch argv
  end.

(** One run of the launcher as a process: it starts with the directory
    [temp] as it finds it, at the [n]-th command of the world, with no
    event yet. *)
Definition boot (n : nat) (dir : option (gmap string string))
  (argv : list string) : Z * State :=
  main argv {| calls := n; temp := dir; trace := [] |}.

End Launcher.

(** ** Reading the trace *)

(** The event is a [system] call of the command [cmd]. *)
Definition is_system_of (cmd : string) (e : event) : bool :=
  match e with
  | System c _ => String.eqb c cmd
  | _ => false
  end.

(** The event reads or changes the file system. *)
Definition touches_files (e : event) : bool :=
  match e with
  | Exists _ _ | CreateDirectory _ | ReadLine _ | WriteFile _ _ => true
  | _ => false
  end.

(** How many times the package installer, respectively the script, was run. *)
Definition installer_runs (env : Env) (events : list event) : nat :=
  length (List.filter (is_system_of (pip_command env)) events).

Definition launcher_runs (env : Env) (argv : list string)
  (events : list event) : nat :=
  length (List.filter (is_system_of (python_command env argv)) events).

(** ** The install gate as the specification words it *)

(** The outcome of the revision probe as the gate uses it: the identifier,
    or [None] when it could not be obtained (the pipe could not be opened,
    or nothing but blanks was gathered from it). *)
Definition current_revision (pipe : option string) : option string :=
  match pipe with
  | Some output =>
      if is_empty (trim (gather output)) then None
      else Some (trim (gather output))
  | None => None
  end.

(** The four branches of the specification's algorithm, on the existence of
    the Installed Marker, the current revision identifier if it could be
    obtained, and the recorded identifier if the Revision Marker exists. *)
Definition should_install_spec (installed : bool) (current : option string)
  (recorded : option string) : bool :=
  if negb installed then true
  else match current with
       | None => false
       | Some cur =>
           match recorded with
           | None => true
           | Some rec => negb (String.eqb (trim cur) (trim rec))
           end
       end.

Definition is_present {A} (o : option A) : bool :=
  match o with Some _ => true | None => false end.

(** The markers ask for no installation at the revision [current]: the
    Installed Marker exists, and either there is no current revision or the
    first line of the Revision Marker, trimmed, is that revision. *)
Definition up_to_date (dir : option (gmap string string)) (current : string)
  : bool :=
  is_present (file_contents dir ".installed")
  && (is_empty current
      || match file_contents dir ".git_last_commit" with
         | Some contents => String.eqb (trim (getline contents)) current
         | None => false
         end).

(** ** The forwarded part of the command line *)

(** The text the loop of step 3 appends for the arguments [args]. *)
Definition forwarded_suffix (args : list string) : string :=
  fold_right (fun arg rest => " " +:+ arg +:+ rest) EmptyString args.

(** ** Sample worlds *)

(** The interpreter answers, the revision probe prints [revision] and a
    line feed, the installer returns [pip_status] and the script
    [script_status]. *)
Definition sample_env (revision : string) (pip_status script_status : Z) : Env :=
  {| exe_dir := "/opt/app";
     popen_result := fun _ cmd =>
       if String.eqb cmd "python --version" then Some ("Python 3.11.4" +:+ nl)
       else Some (revision +:+ nl);
     system_result := fun _ cmd =>
       if String.prefix "pip " cmd then pip_status else script_status |}.

(** No pipe can be opened at all. *)
Definition no_pipe_env : Env :=
  {| exe_dir := "/opt/app";
     popen_result := fun _ _ => None;
     system_result := fun _ _ => 0 |}.

(** The revision probe answers ["aaa"] to the first two commands and
    ["bbb"] afterwards; the other commands succeed. *)
Definition moving_env : Env :=
  {| exe_dir := "/opt/app";
     popen_result := fun n cmd =>
       if String.eqb cmd "python --version" then Some ("Python 3.11.4" +:+ nl)
       else if (n <=? 1)%nat then Some ("aaa" +:+ nl) else Some ("bbb" +:+ nl);
     system_result := fun _ _ => 0 |}.

(** The probe answers to the first two commands and fails afterwards. *)
Definition fading_env : Env :=
  {| exe_dir := "/opt/app";
     popen_result := fun n cmd =>
       if String.eqb cmd "python --version" then Some ("Python 3.11.4" +:+ nl)
       else if (n <=? 1)%nat then Some ("aaa" +:+ nl) else None;
     system_result := fun _ _ => 0 |}.

(** The revision probe always prints two lines, "abc" and "def"; the
    other commands succeed. *)
Definition two_line_env : Env :=
  {| exe_dir := "/opt/app";
     popen_result := fun _ cmd =>
       if String.eqb cmd "python --version" then Some ("Python 3.11.4" +:+ nl)
       else Some ("abc" +:+ nl +:+ "def" +:+ nl);
     system_result := fun _ _ => 0 |}.

(** A directory [temp] holding both markers. *)
Definition marked (revision_file : string) : option (gmap string string) :=
  Some (<[".git_last_commit" := revision_file]> (<[".installed" := "installed"]> ∅)).

(** ** Observing a run *)

Definition exit_status (env : Env) (n : nat) (dir : option (gmap string string))
  (argv : list string) : Z :=
  fst (boot env n dir argv).

Definition events (env : Env) (n : nat) (dir : option (gmap string string))
  (argv : list string) : list event :=
  trace (snd (boot env n dir argv)).

Definition temp_after (env : Env) (n : nat) (dir : option (gmap string string))
  (argv : list string) : option (gmap string string) :=
  temp (snd (boot env n dir argv)).

Definition calls_after (env : Env) (n : nat) (dir : option (gmap string string))
  (argv : list string) : nat :=
  calls (snd (boot env n dir argv)).

(** The event writes a file. *)
Definition writes_file (e : event) : bool :=
  match e with
  | WriteFile _ _ => true
  | _ => false
  end.

(** The paths of the directory [temp] and of the two markers. *)
Definition temp_folder (env : Env) : string :=
  get_executable_directory env </> "temp".

Definition installed_marker (env : Env) : string :=
  temp_folder env </> ".installed".

Definition revision_marker (env : Env) : string :=
  temp_folder env </> ".git_last_commit".

(** The value [get_git_commit_hash] returns for an answer of the world. *)
Definition hash_of_probe (pipe : option string) : string :=
  match pipe with
  | Some output => trim (gather output)
  | None => EmptyString
  end.

(** What [popen] yields for a command that the command interpreter cannot
    find or run: [popen] starts the interpreter, not the command, so the
    pipe is opened; the interpreter reports the failure on its own error
    stream, and the standard output, which is all the pipe carries, stays
    empty. *)
Definition command_not_found : option string := Some EmptyString.

(** A machine without the interpreter: the probe finds no command, the
    installer works, and the launch of the script fails with status 127. *)
Definition no_python_env : Env :=
  {| exe_dir := "/opt/app";
     popen_result := fun _ cmd =>
       if String.eqb cmd "python --version" then command_not_found
       else Some ("abc123" +:+ nl);
     system_result := fun _ cmd =>
       if String.prefix "pip " cmd then 0 else 127 |}.

(** ** The earlier variant [src/app_launcher.cpp] *)

(** The first version of the launcher has no markers: it probes the
    interpreter, installs the requirements on every run and launches
    [main.py] from the current directory. *)
Module Plain.

Section Launcher.

Variable env : Env.

Definition pip_command : string := "pip install -r requirements.txt".

Definition python_command (argv : list string) : string :=
  fold_left (fun command arg => (command +:+ " ") +:+ arg)
            (drop 1 argv) "python .\main.py".

Definition main (argv : list string) : M Z :=
  let* probe := exec env "python --version" in
  match probe with
  | None =>
      cerr ("Error: Python is not installed or not in PATH." +:+ nl) >>
      ret 1
  | Some python_version =>
      cout ("Python is installed: " +:+ python_version) >>
      cout ("Installing requirements..." +:+ nl) >>
      let* pip_result := system env pip_command in
      if negb (pip_result =? 0) then
        cerr ("Error: Failed to install requirements." +:+ nl) >>
        ret 1
      else
        let command := python_command argv in
        cout ("Launching Python script..." +:+ nl) >>
        let* python_result := system env command in
        if negb (python_result =? 0) then
          cerr ("Error: Python script execution failed." +:+ nl) >>
          ret 1
        else ret 0
  end.

End Launcher.

End Plain.

(** ** More ways to look at texts and runs *)

(** Every character of the text is a blank. *)
Fixpoint all_space (s : string) : bool :=
  match s with
  | EmptyString => true
  | String ch rest => isspace ch && all_space rest
  end.

(** The last character of a text. *)
Fixpoint last_char (s : string) : option ascii :=
  match s with
  | EmptyString => None
  | String ch rest =>
      match last_char rest with
      | Some final => Some final
      | None => Some ch
      end
  end.

(** The text ends with a character that is not a blank, or is empty. *)
Definition clean_end (s : string) : bool :=
  match last_char s with
  | Some ch => negb (isspace ch)
  | None => true
  end.

(** A state in which nothing has been recorded yet. *)
Definition fresh (n : nat) (dir : option (gmap string string)) : State :=
  {| calls := n; temp := dir; trace := [] |}.

(** The event creates a directory or writes a file. *)
Definition changes_files (e : event) : bool :=
  match e with
  | CreateDirectory _ | WriteFile _ _ => true
  | _ => false
  end.

(** * Properties *)

#[local] Arguments gather : simpl never.

(** ** Text *)

Section TextFacts.

Lemma append_cons (ch : ascii) (s t : string) :
  String ch s +:+ t = String ch (s +:+ t).
Proof. reflexivity. Qed.

Lemma append_nil_l (t : string) : "" +:+ t = t.
Proof. reflexivity. Qed.

Lemma append_nil_r (s : string) : s +:+ "" = s.
Proof.
  induction s as [|ch s IH]; [reflexivity|]. now rewrite append_cons, IH.
Qed.

Lemma append_assoc (a b c : string) : (a +:+ b) +:+ c = a +:+ (b +:+ c).
Proof.
  induction a as [|ch a IH]; [reflexivity|]. now rewrite !append_cons, IH.
Qed.

Lemma rev_app_append (s t : string) :
  String.rev_app s t = String.rev s +:+ t.
Proof.
  revert t. induction s as [|ch s IH]; intros t; [reflexivity|].
  unfold String.rev. simpl. rewrite (IH (String ch t)), (IH (String ch "")).
  now rewrite append_assoc.
Qed.

Lemma rev_cons (ch : ascii) (s : string) :
  String.rev (String ch s) = String.rev s +:+ String ch "".
Proof. unfold String.rev at 1. simpl. apply rev_app_append. Qed.

Lemma rev_append (a b : string) :
  String.rev (a +:+ b) = String.rev b +:+ String.rev a.
Proof.
  induction a as [|ch a IH].
  - change (String.rev "") with "". now rewrite append_nil_r.
  - now rewrite append_cons, !rev_cons, IH, append_assoc.
Qed.

Lemma rev_involutive (s : string) : String.rev (String.rev s) = s.
Proof.
  induction s as [|ch s IH]; [reflexivity|].
  now rewrite rev_cons, rev_append, IH.
Qed.

Lemma erase_leading_clean (s : string) : clean_start (erase_leading s) = true.
Proof.
  induction s as [|ch s IH]; [reflexivity|]. simpl.
  destruct (isspace ch) eqn:E; [exact IH | simpl; now rewrite E].
Qed.

Lemma erase_leading_fixed (s : string) :
  clean_start s = true -> erase_leading s = s.
Proof.
  destruct s as [|ch s]; [reflexivity|]. simpl.
  now destruct (isspace ch).
Qed.

(** What [erase_leading] removes is a prefix. *)
Lemma erase_leading_split (s : string) :
  exists blanks, s = blanks +:+ erase_leading s.
Proof.
  induction s as [|ch s [blanks IH]]; [now exists ""|]. simpl.
  destruct (isspace ch).
  - exists (String ch blanks). now rewrite append_cons, <- IH.
  - now exists "".
Qed.

(** Erasing the trailing blanks of a text that starts clean leaves a text
    that starts clean. *)
Lemma erase_trailing_clean (s : string) :
  clean_start s = true -> clean_start (erase_trailing s) = true.
Proof.
  intros Hs. unfold erase_trailing.
  destruct (erase_leading_split (String.rev s)) as [blanks Hsplit].
  apply (f_equal String.rev) in Hsplit.
  rewrite rev_involutive, rev_append in Hsplit.
  destruct (String.rev (erase_leading (String.rev s))) as [|ch kept] eqn:E;
    [reflexivity|].
  rewrite Hsplit in Hs. exact Hs.
Qed.

Lemma erase_trailing_idempotent (s : string) :
  erase_trailing (erase_trailing s) = erase_trailing s.
Proof.
  unfold erase_trailing. rewrite rev_involutive.
  now rewrite (erase_leading_fixed _ (erase_leading_clean _)).
Qed.

Lemma trim_clean (s : string) : clean_start (trim s) = true.
Proof. apply erase_trailing_clean, erase_leading_clean. Qed.

(** [trim] leaves a trimmed text as it is. *)
Lemma trim_idempotent (s : string) : trim (trim s) = trim s.
Proof.
  unfold trim at 1. rewrite (erase_leading_fixed _ (trim_clean s)).
  unfold trim. apply erase_trailing_idempotent.
Qed.

(** A text of one line is its own first line. *)
Lemma getline_one_line (s : string) : one_line s = true -> getline s = s.
Proof.
  induction s as [|ch s IH]; [reflexivity|]. simpl.
  destruct (Ascii.eqb ch newline); [discriminate|].
  simpl. intros H. now rewrite IH.
Qed.

End TextFacts.

(** ** Command lines *)

Section CommandFacts.

Variable env : Env.

Lemma fold_left_suffix (args : list string) (command : string) :
  fold_left (fun command arg => (command +:+ " ") +:+ arg) args command
  = command +:+ forwarded_suffix args.
Proof.
  revert command. induction args as [|arg args IH]; intros command; simpl.
  - now rewrite append_nil_r.
  - now rewrite IH, !append_assoc.
Qed.

(** The command line is the interpreter, the script path, and then every
    argument after the first, each behind one space. *)
Lemma python_command_shape (argv : list string) :
  python_command env argv
  = ("python " +:+ python_script env) +:+ forwarded_suffix (drop 1 argv).
Proof. unfold python_command. apply fold_left_suffix. Qed.

Lemma pip_is_not_python (argv : list string) :
  pip_command env <> python_command env argv.
Proof.
  rewrite python_command_shape. unfold pip_command.
  rewrite append_assoc, !append_cons. discriminate.
Qed.

Lemma pip_eqb_python (argv : list string) :
  (pip_command env =? python_command env argv)%string = false.
Proof. apply String.eqb_neq, pip_is_not_python. Qed.

Lemma python_eqb_pip (argv : list string) :
  (python_command env argv =? pip_command env)%string = false.
Proof. rewrite String.eqb_sym. apply pip_eqb_python. Qed.

Lemma forwarded_suffix_app (before after : list string) :
  forwarded_suffix (before ++ after)
  = forwarded_suffix before +:+ forwarded_suffix after.
Proof.
  induction before as [|arg before IH]; simpl; [reflexivity|].
  now rewrite IH, !append_assoc.
Qed.

End CommandFacts.

(** ** Forwarding the arguments *)

(** C7 as stated fails: the argument lists ["a b"] and ["a"; "b"] give the
    same command line, and the command line is all that [system] is
    given, so no reading of command lines gives the script, for every
    argument list, the arguments as the launcher received them. *)
Lemma command_line_loses_argument_boundaries :
  python_command (sample_env "abc123" 0 0) ["app"; "a b"]
  = python_command (sample_env "abc123" 0 0) ["app"; "a"; "b"]
  /\ ~ (exists received : string -> list string,
          forall argv,
            received (python_command (sample_env "abc123" 0 0) argv) = drop 1 argv).
Proof.
  split; [reflexivity|].
  intros [received Hreceived].
  pose proof (Hreceived ["app"; "a b"]) as Hone.
  pose proof (Hreceived ["app"; "a"; "b"]) as Htwo.
  change (python_command (sample_env "abc123" 0 0) ["app"; "a b"])
    with (python_command (sample_env "abc123" 0 0) ["app"; "a"; "b"]) in Hone.
  rewrite Htwo in Hone. discriminate Hone.
Qed.



(** ** The install gate *)

(** The decision of the gate, computed from the three things it looks at. *)
Lemma should_install_decision (env : Env) (folder : string) (st : State) :
  fst (should_install env folder st)
  = match file_contents (temp st) ".installed" with
    | None => true
    | Some _ =>
        let current := hash_of_probe (popen_result env (calls st) "git rev-parse HEAD") in
        if is_empty current then false
        else match file_contents (temp st) ".git_last_commit" with
             | None => true
             | Some contents => negb (String.eqb (trim (getline contents)) current)
             end
    end.
Proof.
  unfold should_install, is_first_time_installed, git_has_updated,
    get_git_commit_hash, exec, file_exists, read_first_line, cout, cerr,
    bind, ret, emit.
  cbn.
  destruct (file_contents (temp st) ".installed"); cbn; [|reflexivity].
  destruct (popen_result env (calls st) "git rev-parse HEAD") as [output|]; cbn;
    [|reflexivity].
  destruct (is_empty (trim (gather output))); cbn; [reflexivity|].
  destruct (file_contents (temp st) ".git_last_commit") eqn:Hmarker; cbn;
    rewrite ?Hmarker; reflexivity.
Qed.

(** C1, as the code has it: the gate returns true if the Installed Marker
    is absent; otherwise false if the current revision identifier cannot be
    obtained; otherwise true if the Revision Marker is absent; otherwise
    true iff the current identifier differs, after trimming both, from the
    first line of the Revision Marker (its text before the first line
    feed). The decision depends on nothing else. *)
Theorem install_gate_decision (env : Env) (folder : string) (st : State) :
  fst (should_install env folder st)
  = should_install_spec
      (is_present (file_contents (temp st) ".installed"))
      (current_revision (popen_result env (calls st) "git rev-parse HEAD"))
      (getline <$> file_contents (temp st) ".git_last_commit").
Proof.
  rewrite should_install_decision. unfold should_install_spec.
  destruct (file_contents (temp st) ".installed"); [|reflexivity]. simpl.
  destruct (popen_result env (calls st) "git rev-parse HEAD") as [output|];
    [|reflexivity]. simpl.
  destruct (is_empty (trim (gather output))); [reflexivity|].
  destruct (file_contents (temp st) ".git_last_commit"); [|reflexivity]. simpl.
  now rewrite trim_idempotent, String.eqb_sym.
Qed.

(** The gate asks for an installation exactly when the markers are not up
    to date at the revision the probe gives. *)
Lemma should_install_up_to_date (env : Env) (folder : string) (st : State) :
  fst (should_install env folder st)
  = negb (up_to_date (temp st)
            (hash_of_probe (popen_result env (calls st) "git rev-parse HEAD"))).
Proof.
  rewrite should_install_decision. unfold up_to_date.
  destruct (file_contents (temp st) ".installed"); [|reflexivity]. simpl.
  destruct (is_empty _); [reflexivity|]. simpl.
  now destruct (file_contents (temp st) ".git_last_commit").
Qed.

(** On a Revision Marker without a line feed, which is what the launcher
    writes for a revision of one line, the first line is the whole file and
    the gate compares the whole contents. *)
Lemma install_gate_on_one_line_marker (env : Env) (folder : string)
  (st : State) (contents : string) :
  file_contents (temp st) ".git_last_commit" = Some contents ->
  one_line contents = true ->
  fst (should_install env folder st)
  = should_install_spec
      (is_present (file_contents (temp st) ".installed"))
      (current_revision (popen_result env (calls st) "git rev-parse HEAD"))
      (file_contents (temp st) ".git_last_commit").
Proof.
  intros Hmarker Hline. rewrite should_install_decision, Hmarker.
  unfold should_install_spec.
  destruct (file_contents (temp st) ".installed"); [|reflexivity]. simpl.
  destruct (popen_result env (calls st) "git rev-parse HEAD") as [output|];
    [|reflexivity]. simpl.
  destruct (is_empty (trim (gather output))); [reflexivity|].
  now rewrite (getline_one_line _ Hline), trim_idempotent, String.eqb_sym.
Qed.

(** C1 as stated fails: with the revision "abc" and a Revision Marker that
    holds an empty first line and then "abc", trimming the contents gives
    the current identifier, yet the gate asks for an installation. *)
Lemma install_gate_reads_first_line :
  let st := {| calls := 1; temp := marked (nl +:+ "abc"); trace := [] |} in
  fst (should_install (sample_env "abc" 0 0) "/opt/app/temp" st) = true
  /\ should_install_spec
       (is_present (file_contents (temp st) ".installed"))
       (current_revision (popen_result (sample_env "abc" 0 0) (calls st) "git rev-parse HEAD"))
       (file_contents (temp st) ".git_last_commit") = false.
Proof. split; vm_compute; reflexivity. Qed.

(** ** Runs of the launcher *)

Ltac launcher_unfold :=
  unfold exit_status, events, temp_after, calls_after, boot, main,
    get_temp_folder_path, should_install, is_first_time_installed,
    git_has_updated, get_git_commit_hash, mark_as_installed,
    update_git_commit_hash, launch, system, exec, folder_exists, file_exists,
    read_first_line, write_file, create_directory, cout, cerr, bind, ret, emit,
    file_contents.

(** One step of the symbolic run: decide the next test the launcher makes
    on an answer of the world or on the directory. *)
Ltac case_step :=
  match goal with
  | |- context [∅ !! _] => rewrite lookup_empty
  | |- context [Z.eqb ?x 0] =>
      lazymatch x with
      | context [match _ with _ => _ end] => fail
      | _ => destruct (Z.eqb_spec x 0)
      end
  | |- context [match ?x with _ => _ end] =>
      lazymatch x with
      | context [match _ with _ => _ end] => fail
      | _ => destruct x eqn:?
      end
  end; cbn.

Ltac explore := launcher_unfold; cbn; repeat case_step.

#[local] Arguments trim : simpl never.

(** Which event of an explicit list a membership hypothesis speaks of. *)
Ltac event_cases H :=
  lazymatch type of H with
  | _ \/ _ => destruct H as [H|H]; [try discriminate H | event_cases H]
  | False => destruct H
  | _ => try discriminate H
  end.

Ltac find_event :=
  cbn; repeat first [left; reflexivity | right].

Lemma system_event_inv (c1 c2 : string) (s1 s2 : Z) :
  System c1 s1 = System c2 s2 -> c1 = c2 /\ s1 = s2.
Proof. intros H. now injection H. Qed.

(** When the pipe of the interpreter probe cannot be opened, the run is
    the probe and the diagnostic, and nothing else. *)
Lemma boot_probe_failure (env : Env) (n : nat)
  (dir : option (gmap string string)) (argv : list string) :
  popen_result env n "python --version" = None ->
  boot env n dir argv
  = (1, {| calls := S n; temp := dir;
           trace := [Popen "python --version" None;
                     Stderr ("Error: Python is not installed or not in PATH." +:+ nl)] |}).
Proof. intros H. launcher_unfold. cbn. now rewrite H. Qed.

(** C8: when the interpreter probe fails, the launcher exits with status 1
    and the file system is neither read nor written: the directory [temp]
    is not created and no marker is looked at or changed. *)
Theorem probe_failure_leaves_files_alone (env : Env) (n : nat)
  (dir : option (gmap string string)) (argv : list string) :
  popen_result env n "python --version" = None ->
  exit_status env n dir argv = 1
  /\ temp_after env n dir argv = dir
  /\ forallb (fun e => negb (touches_files e)) (events env n dir argv) = true.
Proof.
  intros H. unfold exit_status, temp_after, events.
  rewrite (boot_probe_failure env n dir argv H). now cbn.
Qed.

Lemma probe_failure_leaves_files_alone_witness :
  popen_result no_pipe_env 0 "python --version" = None
  /\ exit_status no_pipe_env 0 None ["app"; "--x"] = 1
  /\ temp_after no_pipe_env 0 None ["app"; "--x"] = None.
Proof.
  split; [reflexivity|].
  pose proof (probe_failure_leaves_files_alone no_pipe_env 0 None ["app"; "--x"] eq_refl)
    as [Hexit [Htemp _]].
  now split.
Defined.

(** When [popen] itself fails, the launcher fails fast: it prints the
    diagnostic on the error stream, exits with status 1 and runs no other
    command. *)
Lemma probe_failure_fails_fast (env : Env) (n : nat)
  (dir : option (gmap string string)) (argv : list string) :
  popen_result env n "python --version" = None ->
  exit_status env n dir argv = 1
  /\ events env n dir argv
     = [Popen "python --version" None;
        Stderr ("Error: Python is not installed or not in PATH." +:+ nl)].
Proof.
  intros H. unfold exit_status, events.
  now rewrite (boot_probe_failure env n dir argv H).
Qed.

(** C3: on a machine without the interpreter the probe goes through: the
    pipe is opened and carries nothing, [exec] throws nothing, and the
    launcher reports the interpreter as installed, creates the directory,
    runs the installer, writes the markers and tries to launch the script;
    only that launch fails. *)
Theorem missing_interpreter_goes_unnoticed :
  popen_result no_python_env 0 "python --version" = command_not_found
  /\ events no_python_env 0 None ["app"]
     = [Popen "python --version" (Some "");
        Stdout "Python is installed: ";
        Exists "/opt/app/temp" false;
        CreateDirectory "/opt/app/temp";
        Stdout ("Created temp folder at: " +:+ quoted "/opt/app/temp" +:+ nl);
        Exists "/opt/app/temp/.installed" false;
        Stdout ("Is first time installed? Yes" +:+ nl);
        Stdout ("Installing requirements..." +:+ nl);
        System "pip install -r /opt/app/src/requirements.txt" 0;
        WriteFile "/opt/app/temp/.installed" "installed";
        Stdout ("Marked application as installed." +:+ nl);
        Popen "git rev-parse HEAD" (Some ("abc123" +:+ nl));
        Stdout ("Current git commit hash: abc123" +:+ nl);
        WriteFile "/opt/app/temp/.git_last_commit" "abc123";
        Stdout ("Updated git commit hash to: abc123" +:+ nl);
        Stdout ("Launching Python script: python /opt/app/src/main.py" +:+ nl);
        System "python /opt/app/src/main.py" 127;
        Stderr ("Error: Python script execution failed." +:+ nl)]
  /\ installer_runs no_python_env (events no_python_env 0 None ["app"]) = 1%nat.
Proof. split; [reflexivity | split; vm_compute; reflexivity]. Qed.

(** C2, as the code has it: when the script was launched, the launcher
    exits with status 0 if [system] returned 0 for it and with status 1
    otherwise. *)
Theorem exit_status_of_launch (env : Env) (n : nat)
  (dir : option (gmap string string)) (argv : list string) (status : Z) :
  In (System (python_command env argv) status) (events env n dir argv) ->
  exit_status env n dir argv = if status =? 0 then 0 else 1.
Proof.
  explore; intros Hin; event_cases Hin;
    apply system_event_inv in Hin as [Hcmd Hstatus];
    try (now destruct (pip_is_not_python env argv));
    first [reflexivity | congruence].
Qed.

Lemma exit_status_of_launch_witness :
  In (System (python_command (sample_env "abc123" 0 3) ["app"; "--x"]) 3)
     (events (sample_env "abc123" 0 3) 0 None ["app"; "--x"])
  /\ exit_status (sample_env "abc123" 0 3) 0 None ["app"; "--x"] = 1.
Proof.
  assert (Hin : In (System (python_command (sample_env "abc123" 0 3) ["app"; "--x"]) 3)
                   (events (sample_env "abc123" 0 3) 0 None ["app"; "--x"])).
  { vm_compute. repeat first [left; reflexivity | right]. }
  split; [exact Hin|].
  exact (exit_status_of_launch (sample_env "abc123" 0 3) 0 None ["app"; "--x"] 3 Hin).
Defined.

(** C2 as stated fails: a script that ends with status 3 makes the
    launcher exit with status 1. *)
Lemma child_status_is_not_passed_through :
  In (System (python_command (sample_env "abc123" 0 3) ["app"]) 3)
     (events (sample_env "abc123" 0 3) 0 None ["app"])
  /\ exit_status (sample_env "abc123" 0 3) 0 None ["app"] = 1
  /\ exit_status (sample_env "abc123" 0 3) 0 None ["app"] <> 3.
Proof.
  split; [|split].
  - vm_compute. repeat first [left; reflexivity | right].
  - vm_compute. reflexivity.
  - vm_compute. discriminate.
Qed.

(** More steps of the symbolic run, for statements that count commands:
    the installer and the launcher are different commands. *)
Ltac command_step :=
  match goal with
  | |- context [(pip_command ?e =? python_command ?e ?a)%string] =>
      rewrite (pip_eqb_python e a)
  | |- context [(python_command ?e ?a =? pip_command ?e)%string] =>
      rewrite (python_eqb_pip e a)
  | |- context [(?c =? ?c)%string] => rewrite (String.eqb_refl c)
  end; cbn.

Ltac explore_commands :=
  launcher_unfold; cbn; repeat first [command_step | case_step].

(** C4: when the installer returns a status other than 0, the launcher
    prints a diagnostic and exits with status 1, writes no file, so that
    both markers are as they were, and does not launch the script. *)
Theorem failed_installation (env : Env) (n : nat)
  (dir : option (gmap string string)) (argv : list string) (status : Z) :
  In (System (pip_command env) status) (events env n dir argv) ->
  status <> 0 ->
  exit_status env n dir argv = 1
  /\ In (Stderr ("Error: Failed to install requirements." +:+ nl))
        (events env n dir argv)
  /\ file_contents (temp_after env n dir argv) ".installed"
     = file_contents dir ".installed"
  /\ file_contents (temp_after env n dir argv) ".git_last_commit"
     = file_contents dir ".git_last_commit"
  /\ forallb (fun e => negb (writes_file e)) (events env n dir argv) = true
  /\ launcher_runs env argv (events env n dir argv) = 0%nat.
Proof.
  unfold launcher_runs.
  explore_commands; intros Hin Hstatus; event_cases Hin;
    apply system_event_inv in Hin as [Hcmd Hst];
    try (now destruct (pip_is_not_python env argv));
    try congruence.
  all: repeat split; first [reflexivity | congruence | solve [find_event]].
Qed.

Lemma failed_installation_witness :
  In (System (pip_command (sample_env "abc123" 3 0)) 3)
     (events (sample_env "abc123" 3 0) 0 None ["app"])
  /\ 3 <> 0
  /\ exit_status (sample_env "abc123" 3 0) 0 None ["app"] = 1
  /\ launcher_runs (sample_env "abc123" 3 0) ["app"]
       (events (sample_env "abc123" 3 0) 0 None ["app"]) = 0%nat.
Proof.
  assert (Hin : In (System (pip_command (sample_env "abc123" 3 0)) 3)
                   (events (sample_env "abc123" 3 0) 0 None ["app"])).
  { vm_compute. repeat first [left; reflexivity | right]. }
  assert (Hne : 3 <> 0) by lia.
  pose proof (failed_installation (sample_env "abc123" 3 0) 0 None ["app"] 3 Hin Hne)
    as [Hexit [_ [_ [_ [_ Hlaunch]]]]].
  repeat split; assumption.
Defined.

Ltac use_answers :=
  repeat match goal with
         | H : popen_result _ _ _ = _ |- _ => rewrite H
         | H : system_result _ _ _ = _ |- _ => rewrite H
         end.

Ltac find_sublist :=
  repeat first [apply sublist_nil | apply sublist_skip | apply sublist_cons].

(** What a run that installed with success looks like: the installer ran
    once, the markers were written after it, the revision written being
    the answer to the query that follows the installer, and the script was
    launched once. *)
Lemma successful_install_run (env : Env) (n : nat)
  (dir : option (gmap string string)) (argv : list string) :
  In (System (pip_command env) 0) (events env n dir argv) ->
  exists k : nat,
    calls_after env n dir argv = S (S k)
    /\ (is_present (file_contents dir ".installed") = true ->
        (S n < k)%nat
        /\ [Popen "git rev-parse HEAD" (popen_result env (S n) "git rev-parse HEAD");
            System (pip_command env) 0;
            Popen "git rev-parse HEAD" (popen_result env k "git rev-parse HEAD")]
           `sublist_of` events env n dir argv)
    /\ [System (pip_command env) 0;
        WriteFile (installed_marker env) "installed";
        Popen "git rev-parse HEAD" (popen_result env k "git rev-parse HEAD");
        WriteFile (revision_marker env)
          (hash_of_probe (popen_result env k "git rev-parse HEAD"))]
       `sublist_of` events env n dir argv
    /\ file_contents (temp_after env n dir argv) ".installed" = Some "installed"
    /\ file_contents (temp_after env n dir argv) ".git_last_commit"
       = Some (hash_of_probe (popen_result env k "git rev-parse HEAD"))
    /\ installer_runs env (events env n dir argv) = 1%nat
    /\ launcher_runs env argv (events env n dir argv) = 1%nat.
Proof.
  unfold launcher_runs, installer_runs, installed_marker, revision_marker,
    temp_folder.
  explore_commands; intros Hin; event_cases Hin;
    apply system_event_inv in Hin as [Hcmd Hst];
    try (now destruct (pip_is_not_python env argv));
    try congruence.
  all: eexists; split; [reflexivity|].
  all: use_answers; cbn [hash_of_probe].
  all: repeat match goal with |- _ /\ _ => split end.
  all: try (intros Hgate; first [discriminate Hgate | split; [lia|]]).
  all: first [reflexivity | solve [find_sublist] | solve [simplify_map_eq; reflexivity]].
Qed.

Lemma hash_of_probe_trimmed (pipe : option string) :
  trim (hash_of_probe pipe) = hash_of_probe pipe.
Proof. destruct pipe as [output|]; [apply trim_idempotent | reflexivity]. Qed.

(** Reading back, the way the gate does, a one-line revision that was
    written from a probe gives that revision. *)
Lemma hash_of_probe_read_back (pipe : option string) :
  one_line (hash_of_probe pipe) = true ->
  trim (getline (hash_of_probe pipe)) = hash_of_probe pipe.
Proof.
  intros Hline. rewrite (getline_one_line _ Hline). apply hash_of_probe_trimmed.
Qed.

(** C9: after a successful installation the Revision Marker holds the
    answer to a probe of its own, the command that follows the installer,
    and not the answer the gate compared, which came from an earlier
    command; when that later probe fails, the marker is written all the
    same and is empty. *)
Theorem revision_written_from_fresh_probe (env : Env) (n : nat)
  (dir : option (gmap string string)) (argv : list string) :
  In (System (pip_command env) 0) (events env n dir argv) ->
  exists k : nat,
    calls_after env n dir argv = S (S k)
    /\ [System (pip_command env) 0;
        Popen "git rev-parse HEAD" (popen_result env k "git rev-parse HEAD");
        WriteFile (revision_marker env)
          (hash_of_probe (popen_result env k "git rev-parse HEAD"))]
       `sublist_of` events env n dir argv
    /\ file_contents (temp_after env n dir argv) ".git_last_commit"
       = Some (hash_of_probe (popen_result env k "git rev-parse HEAD"))
    /\ (popen_result env k "git rev-parse HEAD" = None ->
        file_contents (temp_after env n dir argv) ".git_last_commit" = Some "")
    /\ (is_present (file_contents dir ".installed") = true ->
        (S n < k)%nat
        /\ [Popen "git rev-parse HEAD" (popen_result env (S n) "git rev-parse HEAD");
            System (pip_command env) 0;
            Popen "git rev-parse HEAD" (popen_result env k "git rev-parse HEAD")]
           `sublist_of` events env n dir argv).
Proof.
  intros Hin.
  destruct (successful_install_run env n dir argv Hin)
    as (k & Hcalls & Hgate & Horder & _ & Hrevision & _).
  exists k. repeat split; try assumption.
  - etransitivity; [|exact Horder]. find_sublist.
  - intros Hnone. now rewrite Hrevision, Hnone.
  - now apply Hgate.
  - now apply Hgate.
Qed.

Lemma revision_written_from_fresh_probe_witness :
  In (System (pip_command fading_env) 0)
     (events fading_env 0 (marked "old") ["app"])
  /\ file_contents (temp_after fading_env 0 (marked "old") ["app"])
       ".git_last_commit" = Some "".
Proof.
  assert (Hin : In (System (pip_command fading_env) 0)
                   (events fading_env 0 (marked "old") ["app"])).
  { vm_compute. repeat first [left; reflexivity | right]. }
  split; [exact Hin|].
  destruct (revision_written_from_fresh_probe fading_env 0 (marked "old") ["app"] Hin)
    as (k & Hcalls & _ & _ & Hnone & _).
  assert (Hk : k = 3%nat) by (vm_compute in Hcalls; lia).
  subst k. apply Hnone. reflexivity.
Defined.

(** The gate compared "aaa"; the marker receives "bbb", the answer of the
    probe made after the installer. *)
Example revision_moves_between_probes :
  In (Popen "git rev-parse HEAD" (Some ("aaa" +:+ nl)))
     (events moving_env 0 (marked "old") ["app"])
  /\ file_contents (temp_after moving_env 0 (marked "old") ["app"])
       ".git_last_commit" = Some "bbb".
Proof.
  split; [vm_compute; repeat first [left; reflexivity | right]|].
  vm_compute. reflexivity.
Qed.

(** A run that finds the markers up to date installs nothing, launches
    the script and leaves the directory as it is. *)
Lemma up_to_date_run (env : Env) (n : nat)
  (dir : option (gmap string string)) (argv : list string) :
  is_present (popen_result env n "python --version") = true ->
  up_to_date dir (hash_of_probe (popen_result env (S n) "git rev-parse HEAD")) = true ->
  installer_runs env (events env n dir argv) = 0%nat
  /\ launcher_runs env argv (events env n dir argv) = 1%nat
  /\ temp_after env n dir argv = dir.
Proof.
  unfold launcher_runs, installer_runs, up_to_date, hash_of_probe, is_present.
  explore_commands; intros Hpython Hsame;
    try first [discriminate | repeat split; reflexivity].
  all: simplify_eq; rewrite Hsame in *; discriminate.
Qed.

(** A run that reaches the gate and does not install found the markers up
    to date. *)
Lemma idle_run_up_to_date (env : Env) (n : nat)
  (dir : option (gmap string string)) (argv : list string) :
  is_present (popen_result env n "python --version") = true ->
  installer_runs env (events env n dir argv) = 0%nat ->
  up_to_date dir (hash_of_probe (popen_result env (S n) "git rev-parse HEAD")) = true.
Proof.
  unfold installer_runs, up_to_date, hash_of_probe, is_present.
  explore_commands; intros Hpython Hidle;
    try first [discriminate | reflexivity].
  all: simplify_eq; now apply negb_false_iff.
Qed.

(** X22: with a revision probe that always gives the same answer, a run that
    does not install is followed by runs that do not install either. *)
Lemma idle_run_stays_idle (env : Env) (n n' : nat)
  (dir : option (gmap string string)) (argv1 argv2 : list string)
  (probe : option string) :
  (forall k, is_present (popen_result env k "python --version") = true) ->
  (forall k, popen_result env k "git rev-parse HEAD" = probe) ->
  installer_runs env (events env n dir argv1) = 0%nat ->
  installer_runs env (events env n' (temp_after env n dir argv1) argv2) = 0%nat.
Proof.
  intros Hpython Hgit Hidle.
  pose proof (idle_run_up_to_date env n dir argv1 (Hpython n) Hidle) as Hdir.
  destruct (up_to_date_run env n dir argv1 (Hpython n) Hdir) as (_ & _ & ->).
  rewrite Hgit in Hdir.
  apply (up_to_date_run env n' dir argv2 (Hpython n')). now rewrite Hgit.
Qed.

(** C6: with an interpreter that answers, a revision probe that always
    gives the same one-line answer (or always fails), and a first run whose
    installation succeeds, two runs in a row run the installer once, in
    the first run, and launch the script once in each run. *)
Theorem two_runs_install_once (env : Env) (n : nat)
  (dir : option (gmap string string)) (argv1 argv2 : list string)
  (probe : option string) :
  (forall k, is_present (popen_result env k "python --version") = true) ->
  (forall k, popen_result env k "git rev-parse HEAD" = probe) ->
  one_line (hash_of_probe probe) = true ->
  In (System (pip_command env) 0) (events env n dir argv1) ->
  let n' := calls_after env n dir argv1 in
  let dir' := temp_after env n dir argv1 in
  installer_runs env (events env n dir argv1) = 1%nat
  /\ installer_runs env (events env n' dir' argv2) = 0%nat
  /\ installer_runs env (events env n dir argv1 ++ events env n' dir' argv2) = 1%nat
  /\ launcher_runs env argv1 (events env n dir argv1) = 1%nat
  /\ launcher_runs env argv2 (events env n' dir' argv2) = 1%nat.
Proof.
  intros Hpython Hgit Hline Hin n' dir'.
  destruct (successful_install_run env n dir argv1 Hin)
    as (k & _ & _ & _ & Hinstalled & Hrevision & Hfirst & Hlaunch).
  rewrite Hgit in Hrevision.
  destruct (up_to_date_run env n' dir' argv2 (Hpython n'))
    as (Hsecond & Hlaunch' & _).
  { unfold up_to_date, dir'. rewrite Hinstalled, Hrevision, Hgit.
    rewrite (hash_of_probe_read_back _ Hline), String.eqb_refl.
    now rewrite orb_true_r. }
  repeat split; try assumption.
  unfold installer_runs in *.
  now rewrite List.filter_app, length_app, Hfirst, Hsecond.
Qed.

Lemma two_runs_install_once_witness :
  (forall k, is_present (popen_result (sample_env "abc123" 0 0) k "python --version") = true)
  /\ (forall k, popen_result (sample_env "abc123" 0 0) k "git rev-parse HEAD"
                = Some ("abc123" +:+ nl))
  /\ one_line (hash_of_probe (Some ("abc123" +:+ nl))) = true
  /\ In (System (pip_command (sample_env "abc123" 0 0)) 0)
        (events (sample_env "abc123" 0 0) 0 None ["app"; "--x"; "1"])
  /\ installer_runs (sample_env "abc123" 0 0)
       (events (sample_env "abc123" 0 0) 0 None ["app"; "--x"; "1"]
        ++ events (sample_env "abc123" 0 0)
             (calls_after (sample_env "abc123" 0 0) 0 None ["app"; "--x"; "1"])
             (temp_after (sample_env "abc123" 0 0) 0 None ["app"; "--x"; "1"])
             ["app"; "--x"; "1"]) = 1%nat.
Proof.
  assert (Hpython : forall k,
             is_present (popen_result (sample_env "abc123" 0 0) k "python --version") = true)
    by (intros k; reflexivity).
  assert (Hgit : forall k, popen_result (sample_env "abc123" 0 0) k "git rev-parse HEAD"
                           = Some ("abc123" +:+ nl))
    by (intros k; reflexivity).
  assert (Hline : one_line (hash_of_probe (Some ("abc123" +:+ nl))) = true)
    by reflexivity.
  assert (Hin : In (System (pip_command (sample_env "abc123" 0 0)) 0)
                   (events (sample_env "abc123" 0 0) 0 None ["app"; "--x"; "1"])).
  { vm_compute. repeat first [left; reflexivity | right]. }
  split; [exact Hpython|]. split; [exact Hgit|].
  split; [exact Hline|]. split; [exact Hin|].
  exact (proj1 (proj2 (proj2
           (two_runs_install_once (sample_env "abc123" 0 0) 0 None
              ["app"; "--x"; "1"] ["app"; "--x"; "1"] (Some ("abc123" +:+ nl))
              Hpython Hgit Hline Hin)))).
Defined.

(** ** The earlier variant *)

(** The earlier variant builds its command line in the same way. *)
Lemma plain_command_shape (argv : list string) :
  Plain.python_command argv
  = "python .\main.py" +:+ forwarded_suffix (drop 1 argv).
Proof. unfold Plain.python_command. apply fold_left_suffix. Qed.

(** X25: it installs on every run in which the pipe of the probe opens, and its
    exit status is 0 only when both the installer and the script return 0. *)
Lemma plain_run (env : Env) (n : nat) (dir : option (gmap string string))
  (argv : list string) (version : string) :
  popen_result env n "python --version" = Some version ->
  let run := Plain.main env argv {| calls := n; temp := dir; trace := [] |} in
  In (System Plain.pip_command (system_result env (S n) Plain.pip_command))
     (trace (snd run))
  /\ temp (snd run) = dir
  /\ fst run
     = if (system_result env (S n) Plain.pip_command =? 0)
          && (system_result env (S (S n)) (Plain.python_command argv) =? 0)
       then 0 else 1.
Proof.
  intros Hpython. unfold Plain.main, exec, system, cout, cerr, bind, ret, emit.
  cbn. rewrite Hpython. cbn.
  destruct (Z.eqb_spec (system_result env (S n) Plain.pip_command) 0); cbn.
  - destruct (Z.eqb_spec
                (system_result env (S (S n)) (Plain.python_command argv)) 0);
      cbn; repeat split; find_event.
  - repeat split; find_event.
Qed.

(** ** Sample texts *)

Example trim_probe_output : trim ("  abc123" +:+ nl) = "abc123".
Proof. reflexivity. Qed.

Example trim_keeps_inner_blanks : trim (" a b " +:+ nl) = "a b".
Proof. reflexivity. Qed.

Example getline_first_line : getline ("abc" +:+ nl +:+ "def") = "abc".
Proof. reflexivity. Qed.

Example getline_leading_line_feed : getline (nl +:+ "abc") = "".
Proof. reflexivity. Qed.


(** ** What [trim] removes and what it keeps *)

Section TrimFacts.

Lemma all_space_append (a b : string) :
  all_space (a +:+ b) = all_space a && all_space b.
Proof.
  induction a as [|ch a IH]; [reflexivity|].
  rewrite append_cons. simpl. now rewrite IH, andb_assoc.
Qed.

Lemma all_space_rev (s : string) : all_space (String.rev s) = all_space s.
Proof.
  induction s as [|ch s IH]; [reflexivity|].
  rewrite rev_cons, all_space_append, IH. simpl.
  now rewrite andb_true_r, andb_comm.
Qed.

Lemma erase_leading_blanks (blanks s : string) :
  all_space blanks = true -> erase_leading (blanks +:+ s) = erase_leading s.
Proof.
  induction blanks as [|ch blanks IH]; [reflexivity|].
  rewrite append_cons. simpl. intros [Hch Hrest]%andb_prop.
  rewrite Hch. now apply IH.
Qed.

Lemma erase_leading_all_space (s : string) :
  all_space s = true -> erase_leading s = "".
Proof.
  intros H. rewrite <- (append_nil_r s). now rewrite erase_leading_blanks.
Qed.

(** What [erase_leading] removes is a prefix of blanks. *)
Lemma erase_leading_cut (s : string) :
  exists blanks, all_space blanks = true /\ s = blanks +:+ erase_leading s.
Proof.
  induction s as [|ch s (blanks & Hblanks & IH)]; [now exists ""|]. simpl.
  destruct (isspace ch) eqn:Hch.
  - exists (String ch blanks). simpl. rewrite Hch, Hblanks.
    split; [reflexivity|]. now rewrite append_cons, <- IH.
  - now exists "".
Qed.

(** What [erase_trailing] removes is a suffix of blanks. *)
Lemma erase_trailing_cut (s : string) :
  exists blanks, all_space blanks = true /\ s = erase_trailing s +:+ blanks.
Proof.
  destruct (erase_leading_cut (String.rev s)) as (blanks & Hblanks & Hcut).
  exists (String.rev blanks). split; [now rewrite all_space_rev|].
  apply (f_equal String.rev) in Hcut.
  now rewrite rev_involutive, rev_append in Hcut.
Qed.

Lemma last_char_append_one (s : string) (ch : ascii) :
  last_char (s +:+ String ch "") = Some ch.
Proof.
  induction s as [|c s IH]; [reflexivity|].
  rewrite append_cons. simpl. now rewrite IH.
Qed.

(** The text read backwards starts clean when the text ends clean. *)
Lemma clean_start_rev (s : string) : clean_start (String.rev s) = clean_end s.
Proof.
  rewrite <- (rev_involutive s) at 2.
  destruct (String.rev s) as [|ch r]; [reflexivity|].
  unfold clean_end. now rewrite rev_cons, last_char_append_one.
Qed.

Lemma erase_trailing_blanks (core blanks : string) :
  all_space blanks = true -> clean_end core = true ->
  erase_trailing (core +:+ blanks) = core.
Proof.
  intros Hblanks Hcore. unfold erase_trailing.
  rewrite rev_append, erase_leading_blanks by now rewrite all_space_rev.
  rewrite erase_leading_fixed by now rewrite clean_start_rev.
  apply rev_involutive.
Qed.

Lemma trim_clean_end (s : string) : clean_end (trim s) = true.
Proof.
  unfold trim, erase_trailing.
  rewrite <- clean_start_rev, rev_involutive. apply erase_leading_clean.
Qed.

Lemma trim_of_blank (s : string) : all_space s = true -> trim s = "".
Proof. intros Hblank. unfold trim. now rewrite erase_leading_all_space. Qed.

Lemma blank_of_trim_empty (s : string) : trim s = "" -> all_space s = true.
Proof.
  intros Hempty.
  destruct (erase_leading_cut s) as (lead & Hlead & Hs).
  destruct (erase_trailing_cut (erase_leading s)) as (trail & Htrail & Hrest).
  fold (trim s) in Hrest. rewrite Hempty, append_nil_l in Hrest.
  rewrite Hs, Hrest, all_space_append, Hlead, Htrail. reflexivity.
Qed.

End TrimFacts.

(** X1: [trim] leaves no blank at either end of its result. *)
Theorem trim_cleans_both_ends (s : string) :
  clean_start (trim s) = true /\ clean_end (trim s) = true.
Proof. split; [apply trim_clean | apply trim_clean_end]. Qed.

(** X2: [trim] removes blanks only, and only from the two ends: the text is
    its trimmed form between a run of blanks and another. *)
Theorem trim_cuts_blanks_only (s : string) :
  exists lead trail,
    all_space lead = true /\ all_space trail = true
    /\ s = lead +:+ trim s +:+ trail.
Proof.
  destruct (erase_leading_cut s) as (lead & Hlead & Hs).
  destruct (erase_trailing_cut (erase_leading s)) as (trail & Htrail & Hrest).
  exists lead, trail. repeat split; try assumption.
  unfold trim. now rewrite <- Hrest.
Qed.

(** X3: a text that has no blank at its ends is what [trim] gives back from
    it, whatever blanks are put around it; blanks inside are kept. *)
Theorem trim_recovers_core (lead core trail : string) :
  all_space lead = true -> all_space trail = true ->
  clean_start core = true -> clean_end core = true ->
  trim (lead +:+ core +:+ trail) = core.
Proof.
  intros Hlead Htrail Hstart Hend. unfold trim.
  rewrite erase_leading_blanks by assumption.
  destruct core as [|ch core].
  - rewrite append_nil_l, erase_leading_all_space by assumption. reflexivity.
  - rewrite erase_leading_fixed by exact Hstart.
    now apply erase_trailing_blanks.
Qed.

Lemma trim_recovers_core_witness :
  all_space ("  " +:+ nl) = true /\ all_space (" " +:+ nl) = true
  /\ clean_start "a b" = true /\ clean_end "a b" = true
  /\ trim (("  " +:+ nl) +:+ "a b" +:+ (" " +:+ nl)) = "a b".
Proof.
  repeat (split; [reflexivity|]).
  exact (trim_recovers_core ("  " +:+ nl) "a b" (" " +:+ nl)
           eq_refl eq_refl eq_refl eq_refl).
Defined.

(** X4: [trim] gives the empty text exactly for the texts made of blanks. *)
Theorem trim_empty_iff_blank (s : string) :
  trim s = "" <-> all_space s = true.
Proof. split; [apply blank_of_trim_empty | apply trim_of_blank]. Qed.

(** ** The helpers of [main], one by one *)

Ltac helper_unfold :=
  unfold get_temp_folder_path, should_install, is_first_time_installed,
    git_has_updated, get_git_commit_hash, mark_as_installed,
    update_git_commit_hash, exec, folder_exists, file_exists,
    read_first_line, write_file, create_directory, cout, cerr, bind, ret,
    emit, fresh.

(** The decision of [git_has_updated], from the answer of the probe and the
    Revision Marker. *)
Lemma git_has_updated_decision (env : Env) (folder : string) (st : State) :
  fst (git_has_updated env folder st)
  = let current := hash_of_probe (popen_result env (calls st) "git rev-parse HEAD") in
    negb (is_empty current)
    && match file_contents (temp st) ".git_last_commit" with
       | None => true
       | Some contents => negb (String.eqb (trim (getline contents)) current)
       end.
Proof.
  helper_unfold. cbn.
  destruct (popen_result env (calls st) "git rev-parse HEAD") as [output|]; cbn;
    [|reflexivity].
  destruct (is_empty (trim (gather output))); cbn; [reflexivity|].
  destruct (file_contents (temp st) ".git_last_commit") eqn:Hmarker; cbn;
    rewrite ?Hmarker; reflexivity.
Qed.

Lemma getline_first_of_many (line rest : string) :
  one_line line = true -> getline (line +:+ nl +:+ rest) = line.
Proof.
  induction line as [|ch line IH]; [reflexivity|].
  rewrite append_cons. simpl.
  destruct (Ascii.eqb ch newline); [discriminate|]. simpl.
  intros H. now rewrite IH.
Qed.

(** X5: [get_temp_folder_path] returns the path [<executable directory>/temp],
    leaves the directory in existence with the files it had, runs no
    command, and has nothing to create when it is called again. *)
Theorem temp_folder_created_once (env : Env) (st : State) :
  let run := get_temp_folder_path env st in
  fst run = temp_folder env
  /\ is_present (temp (snd run)) = true
  /\ (forall name, file_contents (temp (snd run)) name = file_contents (temp st) name)
  /\ calls (snd run) = calls st
  /\ get_temp_folder_path env (snd run)
     = (temp_folder env, emit (Exists (temp_folder env) true) (snd run)).
Proof.
  helper_unfold. unfold temp_folder. cbn.
  destruct (temp st) as [files|]; cbn; repeat split;
    try (intros name; apply lookup_empty).
Qed.

(** The loop of [exec] gives back a text without NUL as it is. *)
Lemma gather_from_without_nul (room : nat) (s : string) :
  no_nul s = true -> gather_from room false s = s.
Proof.
  revert room. induction s as [|ch s IH]; intros room; [reflexivity|].
  simpl. destruct (Ascii.eqb ch nul); [discriminate|]. simpl. intros Hrest.
  destruct (Ascii.eqb ch newline).
  - destruct room; now rewrite IH.
  - destruct room; now rewrite IH.
Qed.

Lemma gather_without_nul (s : string) : no_nul s = true -> gather s = s.
Proof. apply gather_from_without_nul. Qed.

Lemma gather_from_has_no_nul (room : nat) (cut : bool) (s : string) :
  no_nul (gather_from room cut s) = true.
Proof.
  revert room cut. induction s as [|ch s IH]; intros room cut; [reflexivity|].
  simpl. destruct (Ascii.eqb ch nul) eqn:Hnul; [apply IH|].
  destruct (Ascii.eqb ch newline);
    destruct room, cut; simpl; rewrite ?Hnul; simpl; apply IH.
Qed.

Lemma gather_from_length (room : nat) (cut : bool) (s : string) :
  (String.length (gather_from room cut s) <= String.length s)%nat.
Proof.
  revert room cut. induction s as [|ch s IH]; intros room cut; [reflexivity|].
  simpl. destruct (Ascii.eqb ch nul).
  - specialize (IH (pred match room with O => 127%nat | _ => room end) true). lia.
  - destruct (Ascii.eqb ch newline); destruct room, cut; simpl;
      match goal with
      | |- context [gather_from ?r ?c s] => specialize (IH r c)
      end; lia.
Qed.

(** X6: [get_git_commit_hash] runs one command and changes no file; what it
    returns has no blank at either end; it is empty exactly when the pipe
    could not be opened or the text gathered from it by the loop of [exec]
    is nothing but blanks; for an output without a NUL character it is
    the output of the command without the blanks around it. *)
Theorem commit_hash_is_trimmed (env : Env) (st : State) :
  let run := get_git_commit_hash env st in
  let pipe := popen_result env (calls st) "git rev-parse HEAD" in
  trim (fst run) = fst run
  /\ clean_start (fst run) = true /\ clean_end (fst run) = true
  /\ (fst run = "" <->
      pipe = None
      \/ exists output, pipe = Some output /\ all_space (gather output) = true)
  /\ (forall output, pipe = Some output -> no_nul output = true ->
      fst run = trim output)
  /\ calls (snd run) = S (calls st)
  /\ temp (snd run) = temp st.
Proof.
  helper_unfold. cbn.
  destruct (popen_result env (calls st) "git rev-parse HEAD") as [output|]; cbn.
  - split; [apply trim_idempotent|]. split; [apply trim_clean|].
    split; [apply trim_clean_end|]. split; [|split; [|split; reflexivity]].
    + split.
      * intros Hempty. right. exists output. split; [reflexivity|].
        now apply blank_of_trim_empty.
      * intros [Hnone|(other & Hsome & Hblank)]; [discriminate|].
        injection Hsome as <-. now apply trim_of_blank.
    + intros other Hsome Hclean. injection Hsome as <-.
      now rewrite (gather_without_nul _ Hclean).
  - repeat split; try reflexivity; try discriminate. intros _. now left.
Qed.

(** X26: the loop of [exec] never returns a NUL character, returns no more
    characters than the command printed, and returns an output without
    NUL as it is: only text that follows a NUL in a buffer is lost. *)
Theorem exec_loop_keeps_clean_output (output : string) :
  no_nul (gather output) = true
  /\ (String.length (gather output) <= String.length output)%nat
  /\ (no_nul output = true -> gather output = output).
Proof.
  split; [apply gather_from_has_no_nul|].
  split; [apply gather_from_length | apply gather_without_nul].
Qed.

(** X7: once [mark_as_installed] has run in an existing directory,
    [is_first_time_installed] answers no; the marker holds its sentinel
    text and every other file of the directory is as before. *)
Theorem marked_is_not_first_time (folder : string) (st : State) :
  is_present (temp st) = true ->
  let marked_state := snd (mark_as_installed folder st) in
  fst (is_first_time_installed folder marked_state) = false
  /\ file_contents (temp marked_state) ".installed" = Some "installed"
  /\ (forall name, name <> ".installed" ->
      file_contents (temp marked_state) name = file_contents (temp st) name)
  /\ calls marked_state = calls st.
Proof.
  helper_unfold. cbn.
  destruct (temp st) as [files|]; [|discriminate]. cbn. intros _.
  rewrite lookup_insert_eq. repeat split.
  intros name Hname. now apply lookup_insert_ne.
Qed.

Lemma marked_is_not_first_time_witness :
  is_present (temp (fresh 0 (Some ∅))) = true
  /\ fst (is_first_time_installed "/opt/app/temp"
            (snd (mark_as_installed "/opt/app/temp"
                    (fresh 0 (Some ∅))))) = false.
Proof.
  split; [reflexivity|].
  exact (proj1 (marked_is_not_first_time "/opt/app/temp" (fresh 0 (Some ∅))
                  eq_refl)).
Defined.

(** X8: without the directory, [mark_as_installed] writes nothing and says
    all the same that the application is marked; the next
    [is_first_time_installed] still answers yes. *)
Theorem mark_without_folder_is_lost (folder : string) (n : nat) :
  let marked_state := snd (mark_as_installed folder (fresh n None)) in
  temp marked_state = None
  /\ trace marked_state
     = [WriteFile (folder </> ".installed") "installed";
        Stdout ("Marked application as installed." +:+ nl)]
  /\ fst (is_first_time_installed folder marked_state) = true.
Proof. helper_unfold. cbn. repeat split. Qed.

(** X9: after [update_git_commit_hash] in an existing directory,
    [git_has_updated] reports an update exactly when the probe now gives a
    revision, and one that differs from the revision recorded, provided
    the recorded revision is one line; the Installed Marker is not
    touched. *)
Theorem recorded_revision_is_compared (env : Env) (folder : string) (st : State) :
  is_present (temp st) = true ->
  one_line (hash_of_probe (popen_result env (calls st) "git rev-parse HEAD")) = true ->
  let recorded := hash_of_probe (popen_result env (calls st) "git rev-parse HEAD") in
  let updated := snd (update_git_commit_hash env folder st) in
  let current := hash_of_probe (popen_result env (calls updated) "git rev-parse HEAD") in
  fst (git_has_updated env folder updated)
  = negb (is_empty current) && negb (String.eqb recorded current)
  /\ file_contents (temp updated) ".git_last_commit" = Some recorded
  /\ file_contents (temp updated) ".installed" = file_contents (temp st) ".installed".
Proof.
  intros Hfolder Hline. cbn zeta.
  rewrite git_has_updated_decision.
  assert (Hstate :
    temp (snd (update_git_commit_hash env folder st))
    = Some (<[".git_last_commit" :=
              hash_of_probe (popen_result env (calls st) "git rev-parse HEAD")]>
              (default ∅ (temp st)))).
  { helper_unfold. cbn. destruct (temp st); [|discriminate].
    now destruct (popen_result env (calls st) "git rev-parse HEAD"). }
  rewrite Hstate. cbn [file_contents].
  rewrite lookup_insert_eq, lookup_insert_ne by discriminate.
  rewrite (hash_of_probe_read_back _ Hline).
  repeat split. now destruct (temp st).
Qed.

Lemma recorded_revision_is_compared_witness :
  is_present (temp (fresh 0 (Some ∅))) = true
  /\ one_line (hash_of_probe
                 (popen_result (sample_env "abc123" 0 0) 0 "git rev-parse HEAD")) = true
  /\ fst (git_has_updated (sample_env "abc123" 0 0) "/opt/app/temp"
            (snd (update_git_commit_hash (sample_env "abc123" 0 0) "/opt/app/temp"
                    (fresh 0 (Some ∅))))) = false.
Proof.
  split; [reflexivity|]. split; [reflexivity|].
  exact (proj1 (recorded_revision_is_compared (sample_env "abc123" 0 0)
                  "/opt/app/temp" (fresh 0 (Some ∅)) eq_refl eq_refl)).
Defined.

(** X10: the test made in step 2 of [main] only looks: it leaves the directory
    as it is, creates and writes nothing, and runs no command but, at
    most, the one revision probe. *)
Theorem install_gate_only_looks (env : Env) (folder : string) (n : nat)
  (dir : option (gmap string string)) :
  let run := should_install env folder (fresh n dir) in
  temp (snd run) = dir
  /\ forallb (fun e => negb (changes_files e)) (trace (snd run)) = true
  /\ (forall cmd status, ~ In (System cmd status) (trace (snd run)))
  /\ (forall cmd pipe, In (Popen cmd pipe) (trace (snd run)) ->
      cmd = "git rev-parse HEAD")
  /\ (calls (snd run) <= S n)%nat.
Proof.
  helper_unfold. unfold file_contents. cbn.
  destruct dir as [files|]; cbn;
    [destruct (files !! ".installed") eqn:Hinstalled; cbn;
     [destruct (popen_result env n "git rev-parse HEAD") as [output|]; cbn;
      [destruct (is_empty (trim (gather output))); cbn;
       [|destruct (files !! ".git_last_commit") eqn:Hmarker; cbn]|]|]|].
  all: repeat split;
    [ intros cmd status H; event_cases H
    | intros cmd pipe H; event_cases H; congruence
    | lia ].
Qed.

(** X11: when the probe gives no revision, [git_has_updated] reports no update
    without looking at any file. *)
Theorem no_revision_no_file_access (env : Env) (folder : string) (n : nat)
  (dir : option (gmap string string)) :
  is_empty (hash_of_probe (popen_result env n "git rev-parse HEAD")) = true ->
  let run := git_has_updated env folder (fresh n dir) in
  fst run = false
  /\ forallb (fun e => negb (touches_files e)) (trace (snd run)) = true.
Proof.
  helper_unfold. unfold hash_of_probe. cbn.
  destruct (popen_result env n "git rev-parse HEAD") as [output|]; cbn.
  - intros ->. cbn. now split.
  - intros _. now split.
Qed.

Lemma no_revision_no_file_access_witness :
  is_empty (hash_of_probe (popen_result no_pipe_env 1 "git rev-parse HEAD")) = true
  /\ fst (git_has_updated no_pipe_env "/opt/app/temp" (fresh 1 (marked "abc123"))) = false.
Proof.
  split; [reflexivity|].
  exact (proj1 (no_revision_no_file_access no_pipe_env "/opt/app/temp" 1
                  (marked "abc123") eq_refl)).
Defined.

(** X12: of a Revision Marker of several lines, [git_has_updated] uses the
    first line, without the blanks around it, and nothing of the rest. *)
Theorem marker_first_line_decides (env : Env) (folder : string) (st : State)
  (line rest : string) :
  file_contents (temp st) ".git_last_commit" = Some (line +:+ nl +:+ rest) ->
  one_line line = true ->
  let current := hash_of_probe (popen_result env (calls st) "git rev-parse HEAD") in
  fst (git_has_updated env folder st)
  = negb (is_empty current) && negb (String.eqb (trim line) current).
Proof.
  intros Hmarker Hline. cbn zeta.
  now rewrite git_has_updated_decision, Hmarker, (getline_first_of_many _ _ Hline).
Qed.

Lemma marker_first_line_decides_witness :
  file_contents (temp (fresh 1 (marked ((" abc123 " +:+ nl) +:+ "old notes"))))
    ".git_last_commit" = Some (" abc123 " +:+ nl +:+ "old notes")
  /\ one_line " abc123 " = true
  /\ fst (git_has_updated (sample_env "abc123" 0 0) "/opt/app/temp"
            (fresh 1 (marked ((" abc123 " +:+ nl) +:+ "old notes")))) = false.
Proof.
  split; [reflexivity|]. split; [reflexivity|].
  exact (marker_first_line_decides (sample_env "abc123" 0 0) "/opt/app/temp"
           (fresh 1 (marked ((" abc123 " +:+ nl) +:+ "old notes")))
           " abc123 " "old notes" eq_refl eq_refl).
Defined.

(** ** Whole runs *)

Ltac same_command H :=
  apply system_event_inv in H as [? ?];
  first [ congruence
        | match goal with
          | Hcmd : python_command ?e ?a = pip_command ?e |- _ =>
              now destruct (pip_is_not_python e a)
          | Hcmd : pip_command ?e = python_command ?e ?a |- _ =>
              now destruct (pip_is_not_python e a)
          end ].

(** X13: the launcher exits with status 0 or 1, and with 0 exactly when it
    launched the script and [system] returned 0 for it. *)
Theorem exit_status_tells_launch (env : Env) (n : nat)
  (dir : option (gmap string string)) (argv : list string) :
  (exit_status env n dir argv = 0 \/ exit_status env n dir argv = 1)
  /\ (exit_status env n dir argv = 0
      <-> In (System (python_command env argv) 0) (events env n dir argv)).
Proof.
  explore_commands.
  all: split; [first [now left | now right]|].
  all: split; [intros Hexit; first [discriminate Hexit | use_answers; find_event]|].
  all: intros Hin; try reflexivity; exfalso; event_cases Hin; same_command Hin.
Qed.

(** X14: a file is written only after the installer has returned 0, and only
    the two markers are ever written. *)
Theorem markers_written_after_install (env : Env) (n : nat)
  (dir : option (gmap string string)) (argv : list string)
  (path text : string) :
  In (WriteFile path text) (events env n dir argv) ->
  In (System (pip_command env) 0) (events env n dir argv)
  /\ ((path = installed_marker env /\ text = "installed")
      \/ path = revision_marker env).
Proof.
  unfold installed_marker, revision_marker, temp_folder.
  explore_commands; intros Hin; event_cases Hin;
    injection Hin as <- <-; (split; [use_answers; find_event|]);
    first [left; split; reflexivity | right; reflexivity].
Qed.

Lemma markers_written_after_install_witness :
  In (WriteFile "/opt/app/temp/.git_last_commit" "abc123")
     (events (sample_env "abc123" 0 0) 0 None ["app"])
  /\ In (System (pip_command (sample_env "abc123" 0 0)) 0)
        (events (sample_env "abc123" 0 0) 0 None ["app"]).
Proof.
  assert (Hin : In (WriteFile "/opt/app/temp/.git_last_commit" "abc123")
                   (events (sample_env "abc123" 0 0) 0 None ["app"])).
  { vm_compute. repeat first [left; reflexivity | right]. }
  split; [exact Hin|].
  exact (proj1 (markers_written_after_install (sample_env "abc123" 0 0) 0 None
                  ["app"] _ _ Hin)).
Defined.

(** The directory after a run: as it was, or created empty, or with the
    two markers written over what it held. *)
Lemma temp_after_shape (env : Env) (n : nat)
  (dir : option (gmap string string)) (argv : list string) :
  temp_after env n dir argv = dir
  \/ temp_after env n dir argv = Some (default ∅ dir)
  \/ exists revision,
       temp_after env n dir argv
       = Some (<[".git_last_commit" := revision]>
                 (<[".installed" := "installed"]> (default ∅ dir))).
Proof.
  explore_commands;
    first [ left; reflexivity
          | right; left; reflexivity
          | right; right; eexists; reflexivity ].
Qed.

Lemma file_contents_default (dir : option (gmap string string)) (name : string) :
  file_contents (Some (default ∅ dir)) name = file_contents dir name.
Proof. destruct dir; [reflexivity | apply lookup_empty]. Qed.

(** X15: no run deletes a file of the directory, and the files other than the
    two markers keep their contents. *)
Theorem other_files_survive (env : Env) (n : nat)
  (dir : option (gmap string string)) (argv : list string) (name : string) :
  (is_present (file_contents dir name) = true ->
   is_present (file_contents (temp_after env n dir argv) name) = true)
  /\ (name <> ".installed" -> name <> ".git_last_commit" ->
      file_contents (temp_after env n dir argv) name = file_contents dir name).
Proof.
  destruct (temp_after_shape env n dir argv) as [-> | [-> | [revision ->]]].
  - now split.
  - rewrite file_contents_default. now split.
  - split.
    + intros Hpresent. cbn [file_contents].
      destruct (decide (name = ".git_last_commit")) as [-> | Hrevision];
        [now rewrite lookup_insert_eq|].
      destruct (decide (name = ".installed")) as [-> | Hinstalled];
        [now rewrite lookup_insert_ne, lookup_insert_eq|].
      rewrite !lookup_insert_ne by congruence.
      now rewrite <- (file_contents_default dir name) in Hpresent.
    + intros Hinstalled Hrevision. cbn [file_contents].
      rewrite !lookup_insert_ne by congruence.
      apply (file_contents_default dir name).
Qed.

(** X16: every run starts with the interpreter probe, runs the installer at
    most once and the script at most once, and runs between one and five
    commands in all. *)
Theorem command_budget (env : Env) (n : nat)
  (dir : option (gmap string string)) (argv : list string) :
  head (events env n dir argv)
  = Some (Popen "python --version" (popen_result env n "python --version"))
  /\ (installer_runs env (events env n dir argv) <= 1)%nat
  /\ (launcher_runs env argv (events env n dir argv) <= 1)%nat
  /\ (n < calls_after env n dir argv <= n + 5)%nat.
Proof.
  unfold installer_runs, launcher_runs.
  explore_commands; use_answers; repeat split; lia.
Qed.

(** X17: when the interpreter answers, the installer runs exactly when the
    markers are not up to date at the revision the probe gives: once, and
    otherwise not at all; the directory exists afterwards. *)
Theorem installer_runs_when_stale (env : Env) (n : nat)
  (dir : option (gmap string string)) (argv : list string) :
  is_present (popen_result env n "python --version") = true ->
  installer_runs env (events env n dir argv)
  = (if up_to_date dir (hash_of_probe (popen_result env (S n) "git rev-parse HEAD"))
     then 0 else 1)%nat
  /\ is_present (temp_after env n dir argv) = true.
Proof.
  unfold installer_runs, up_to_date, hash_of_probe, is_present.
  explore_commands; intros Hpython;
    first [discriminate | split; reflexivity | idtac].
  all: exfalso; simplify_eq;
    match goal with
    | H : negb ?b = _, H' : ?b = _ |- _ => rewrite H' in H; discriminate H
    end.
Qed.

Lemma installer_runs_when_stale_witness :
  is_present (popen_result (sample_env "abc123" 0 0) 0 "python --version") = true
  /\ installer_runs (sample_env "abc123" 0 0)
       (events (sample_env "abc123" 0 0) 0 (marked "abc123") ["app"]) = 0%nat
  /\ installer_runs (sample_env "abc123" 0 0)
       (events (sample_env "abc123" 0 0) 0 (marked "older") ["app"]) = 1%nat.
Proof.
  split; [reflexivity|]. split.
  - exact (proj1 (installer_runs_when_stale (sample_env "abc123" 0 0) 0
                    (marked "abc123") ["app"] eq_refl)).
  - exact (proj1 (installer_runs_when_stale (sample_env "abc123" 0 0) 0
                    (marked "older") ["app"] eq_refl)).
Defined.

(** X18: in a run that finds no Installed Marker the installer is the command
    that follows the interpreter probe: the revision is not asked for
    before the installation. *)
Theorem first_run_installs_at_once (env : Env) (n : nat)
  (dir : option (gmap string string)) (argv : list string) :
  is_present (popen_result env n "python --version") = true ->
  file_contents dir ".installed" = None ->
  In (System (pip_command env) (system_result env (S n) (pip_command env)))
     (events env n dir argv)
  /\ (system_result env (S n) (pip_command env) <> 0 ->
      forall cmd pipe, In (Popen cmd pipe) (events env n dir argv) ->
                       cmd = "python --version").
Proof.
  unfold is_present.
  explore_commands; intros Hpython Hinstalled; try discriminate;
    (split; [find_event|]); intros Hfailed; try contradiction;
    intros cmd pipe Hin; event_cases Hin; congruence.
Qed.

Lemma first_run_installs_at_once_witness :
  is_present (popen_result (sample_env "abc123" 3 0) 0 "python --version") = true
  /\ file_contents None ".installed" = None
  /\ In (System (pip_command (sample_env "abc123" 3 0)) 3)
        (events (sample_env "abc123" 3 0) 0 None ["app"]).
Proof.
  split; [reflexivity|]. split; [reflexivity|].
  exact (proj1 (first_run_installs_at_once (sample_env "abc123" 3 0) 0 None
                  ["app"] eq_refl eq_refl)).
Defined.

(** X19: the last thing a run prints tells how it ended: a run that exits with
    status 1 ends with one of three lines on the error stream, a run that
    exits with status 0 with the line of success on the output stream. *)
Theorem last_line_tells_exit_status (env : Env) (n : nat)
  (dir : option (gmap string string)) (argv : list string) :
  match last (events env n dir argv) with
  | Some (Stderr text) =>
      exit_status env n dir argv = 1
      /\ (text = "Error: Python is not installed or not in PATH." +:+ nl
          \/ text = "Error: Failed to install requirements." +:+ nl
          \/ text = "Error: Python script execution failed." +:+ nl)
  | Some (Stdout text) =>
      exit_status env n dir argv = 0
      /\ text = "Python script executed successfully." +:+ nl
  | _ => False
  end.
Proof.
  explore_commands; split; first [reflexivity | tauto].
Qed.

(** X20: the directory [temp] is created exactly in the runs that pass the
    interpreter probe and do not find it. *)
Theorem temp_folder_created_when_missing (env : Env) (n : nat)
  (dir : option (gmap string string)) (argv : list string) :
  In (CreateDirectory (temp_folder env)) (events env n dir argv)
  <-> is_present (popen_result env n "python --version") = true /\ dir = None.
Proof.
  unfold temp_folder, is_present.
  explore_commands; split;
    first [ intros Hin; event_cases Hin; fail
          | intros [Hpython Hdir]; discriminate
          | intros _; first [now split | find_event] ].
Qed.

(** X21: a run that finds the markers up to date changes nothing in the
    directory and still launches the script, once. *)
Theorem up_to_date_run_changes_nothing (env : Env) (n : nat)
  (dir : option (gmap string string)) (argv : list string) :
  is_present (popen_result env n "python --version") = true ->
  up_to_date dir (hash_of_probe (popen_result env (S n) "git rev-parse HEAD")) = true ->
  temp_after env n dir argv = dir
  /\ forallb (fun e => negb (changes_files e)) (events env n dir argv) = true
  /\ launcher_runs env argv (events env n dir argv) = 1%nat
  /\ calls_after env n dir argv = (n + 3)%nat.
Proof.
  intros Hpython Hfresh.
  destruct (up_to_date_run env n dir argv Hpython Hfresh) as (_ & Hlaunch & Htemp).
  split; [exact Htemp|]. split; [|split; [exact Hlaunch|]].
  - revert Hpython Hfresh.
    unfold up_to_date, hash_of_probe, is_present.
    explore_commands; intros Hpython Hfresh;
      first [discriminate | reflexivity | idtac].
    all: exfalso; simplify_eq;
      match goal with
      | H : negb ?b = _, H' : ?b = _ |- _ => rewrite H' in H; discriminate H
      end.
  - revert Hpython Hfresh.
    unfold up_to_date, hash_of_probe, is_present.
    explore_commands; intros Hpython Hfresh;
      first [discriminate | lia | idtac].
    all: exfalso; simplify_eq;
      match goal with
      | H : negb ?b = _, H' : ?b = _ |- _ => rewrite H' in H; discriminate H
      end.
Qed.

Lemma up_to_date_run_changes_nothing_witness :
  is_present (popen_result (sample_env "abc123" 0 0) 0 "python --version") = true
  /\ up_to_date (marked "abc123")
       (hash_of_probe (popen_result (sample_env "abc123" 0 0) 1 "git rev-parse HEAD")) = true
  /\ temp_after (sample_env "abc123" 0 0) 0 (marked "abc123") ["app"] = marked "abc123".
Proof.
  split; [reflexivity|]. split; [reflexivity|].
  exact (proj1 (up_to_date_run_changes_nothing (sample_env "abc123" 0 0) 0
                  (marked "abc123") ["app"] eq_refl eq_refl)).
Defined.

Lemma idle_run_stays_idle_witness :
  (forall k, is_present (popen_result (sample_env "abc123" 0 0) k "python --version") = true)
  /\ (forall k, popen_result (sample_env "abc123" 0 0) k "git rev-parse HEAD"
                = Some ("abc123" +:+ nl))
  /\ installer_runs (sample_env "abc123" 0 0)
       (events (sample_env "abc123" 0 0) 0 (marked "abc123") ["app"]) = 0%nat
  /\ installer_runs (sample_env "abc123" 0 0)
       (events (sample_env "abc123" 0 0) 7
          (temp_after (sample_env "abc123" 0 0) 0 (marked "abc123") ["app"])
          ["app"; "again"]) = 0%nat.
Proof.
  assert (Hpython : forall k,
             is_present (popen_result (sample_env "abc123" 0 0) k "python --version") = true)
    by (intros k; reflexivity).
  assert (Hgit : forall k, popen_result (sample_env "abc123" 0 0) k "git rev-parse HEAD"
                           = Some ("abc123" +:+ nl))
    by (intros k; reflexivity).
  assert (Hidle : installer_runs (sample_env "abc123" 0 0)
                    (events (sample_env "abc123" 0 0) 0 (marked "abc123") ["app"]) = 0%nat)
    by (vm_compute; reflexivity).
  split; [exact Hpython|]. split; [exact Hgit|]. split; [exact Hidle|].
  exact (idle_run_stays_idle (sample_env "abc123" 0 0) 0 7 (marked "abc123")
           ["app"] ["app"; "again"] (Some ("abc123" +:+ nl)) Hpython Hgit Hidle).
Defined.

(** ** The command line, once more *)

(** X23: the command line does not keep the boundaries of the arguments: one
    argument made of two words with a space between them gives the
    command line of the two words passed as two arguments. *)
Theorem adjacent_arguments_merge (env : Env) (program a b : string)
  (before after : list string) :
  python_command env (program :: before ++ (a +:+ " " +:+ b) :: after)
  = python_command env (program :: before ++ a :: b :: after).
Proof.
  rewrite !python_command_shape.
  change (drop 1 (program :: ?l)) with l.
  rewrite !forwarded_suffix_app. simpl.
  now rewrite !append_assoc.
Qed.

(** ** The earlier variant, once more *)

Lemma plain_pip_is_not_python (argv : list string) :
  Plain.pip_command <> Plain.python_command argv.
Proof.
  rewrite plain_command_shape. unfold Plain.pip_command.
  rewrite !append_cons. discriminate.
Qed.

(** X24: the earlier variant keeps no state: it never looks at or changes a
    file, and it launches the script only after the installer, run in the
    same run, has returned 0. *)
Theorem plain_keeps_no_state (env : Env) (n : nat)
  (dir : option (gmap string string)) (argv : list string) :
  let run := Plain.main env argv (fresh n dir) in
  temp (snd run) = dir
  /\ forallb (fun e => negb (touches_files e)) (trace (snd run)) = true
  /\ (forall status, In (System (Plain.python_command argv) status) (trace (snd run)) ->
      In (System Plain.pip_command 0) (trace (snd run))).
Proof.
  unfold Plain.main, exec, system, cout, cerr, bind, ret, emit, fresh. cbn.
  destruct (popen_result env n "python --version") as [version|]; cbn.
  - destruct (Z.eqb_spec (system_result env (S n) Plain.pip_command) 0) as [Hpip|Hpip];
      cbn.
    + destruct (Z.eqb_spec
                  (system_result env (S (S n)) (Plain.python_command argv)) 0);
        cbn; repeat split; intros status Hin; rewrite Hpip; find_event.
    + repeat split. intros status Hin. event_cases Hin.
      apply system_event_inv in Hin as [Hcmd _].
      now destruct (plain_pip_is_not_python argv).
  - repeat split. intros status Hin. event_cases Hin.
Qed.

Lemma plain_run_witness :
  popen_result (sample_env "abc123" 0 0) 0 "python --version"
  = Some ("Python 3.11.4" +:+ nl)
  /\ fst (Plain.main (sample_env "abc123" 0 0) ["app"]
            {| calls := 0; temp := marked "abc123"; trace := [] |}) = 0.
Proof.
  split; [reflexivity|].
  exact (proj2 (proj2 (plain_run (sample_env "abc123" 0 0) 0 (marked "abc123")
                         ["app"] ("Python 3.11.4" +:+ nl) eq_refl))).
Defined.

(** ** The markers after an installation, and the command line of the launch *)

Lemma one_line_append (a b : string) :
  one_line (a +:+ b) = one_line a && one_line b.
Proof.
  induction a as [|ch a IH]; [reflexivity|].
  rewrite append_cons. simpl. now rewrite IH, andb_assoc.
Qed.

(** A text is its trimmed form between two runs of blanks. *)
Lemma trim_between_blanks (s : string) :
  exists lead trail,
    all_space lead = true /\ all_space trail = true
    /\ s = lead +:+ trim s +:+ trail.
Proof.
  destruct (erase_leading_cut s) as (lead & Hlead & Hs).
  destruct (erase_trailing_cut (erase_leading s)) as (trail & Htrail & Hrest).
  exists lead, trail. split; [exact Hlead|]. split; [exact Htrail|].
  unfold trim. now rewrite <- Hrest.
Qed.

Lemma one_line_trim (s : string) : one_line s = true -> one_line (trim s) = true.
Proof.
  destruct (trim_between_blanks s) as (lead & trail & _ & _ & Hs).
  rewrite Hs at 1. rewrite !one_line_append.
  now intros [_ [Hcore _]%andb_prop]%andb_prop.
Qed.

(** Blanks after a text do not change its trimmed form. *)
Lemma trim_append_blanks (s blanks : string) :
  all_space blanks = true -> trim (s +:+ blanks) = trim s.
Proof.
  intros Hblanks.
  pose proof (trim_clean s) as Hstart. pose proof (trim_clean_end s) as Hend.
  destruct (trim_between_blanks s) as (lead & trail & Hlead & Htrail & Hs).
  remember (trim s) as core eqn:Hcore. clear Hcore.
  rewrite Hs. rewrite !append_assoc. unfold trim.
  rewrite erase_leading_blanks by exact Hlead.
  assert (Htail : all_space (trail +:+ blanks) = true)
    by now rewrite all_space_append, Htrail, Hblanks.
  destruct core as [|ch core].
  - rewrite append_nil_l, erase_leading_all_space by exact Htail. reflexivity.
  - rewrite erase_leading_fixed by exact Hstart.
    now apply erase_trailing_blanks.
Qed.

(** The revision [get_git_commit_hash] returns, against the text gathered
    from the pipe. *)
Lemma hash_of_probe_cut (pipe : option string) :
  clean_start (hash_of_probe pipe) = true
  /\ clean_end (hash_of_probe pipe) = true
  /\ match pipe with
     | None => hash_of_probe pipe = ""
     | Some output =>
         exists lead trail,
           all_space lead = true /\ all_space trail = true
           /\ gather output = lead +:+ hash_of_probe pipe +:+ trail
     end.
Proof.
  destruct pipe as [output|]; simpl.
  - split; [apply trim_clean|]. split; [apply trim_clean_end|].
    apply trim_between_blanks.
  - repeat split.
Qed.

(** C5, as the code has it: when the installer returns 0, the launcher
    afterwards writes both markers, whatever they held: the Installed
    Marker with its sentinel text, and the Revision Marker with the text
    gathered from a revision probe, cut of the blanks before and after it
    and of nothing else (the empty text when the probe fails). The marker
    has no blank, hence no line feed, at either end; it is a single line
    when the probe gave one line followed by blanks. *)
Theorem successful_installation_writes_markers (env : Env) (n : nat)
  (dir : option (gmap string string)) (argv : list string) :
  In (System (pip_command env) 0) (events env n dir argv) ->
  exists (pipe : option string) (written : string),
    [System (pip_command env) 0;
     WriteFile (installed_marker env) "installed";
     Popen "git rev-parse HEAD" pipe;
     WriteFile (revision_marker env) written]
    `sublist_of` events env n dir argv
    /\ file_contents (temp_after env n dir argv) ".installed" = Some "installed"
    /\ file_contents (temp_after env n dir argv) ".git_last_commit" = Some written
    /\ clean_start written = true /\ clean_end written = true
    /\ match pipe with
       | None => written = ""
       | Some output =>
           exists lead trail,
             all_space lead = true /\ all_space trail = true
             /\ gather output = lead +:+ written +:+ trail
       end
    /\ (forall output line blanks,
          pipe = Some output -> gather output = line +:+ blanks ->
          one_line line = true -> all_space blanks = true ->
          one_line written = true).
Proof.
  intros Hin.
  destruct (successful_install_run env n dir argv Hin)
    as (k & _ & _ & Horder & Hinstalled & Hrevision & _).
  destruct (hash_of_probe_cut (popen_result env k "git rev-parse HEAD"))
    as (Hstart & Hend & Hcut).
  exists (popen_result env k "git rev-parse HEAD"),
         (hash_of_probe (popen_result env k "git rev-parse HEAD")).
  split; [exact Horder|]. split; [exact Hinstalled|]. split; [exact Hrevision|].
  split; [exact Hstart|]. split; [exact Hend|]. split; [exact Hcut|].
  intros output line blanks Hpipe Hgathered Hline Hblanks.
  rewrite Hpipe. simpl. rewrite Hgathered, (trim_append_blanks _ _ Hblanks).
  now apply one_line_trim.
Qed.

Lemma successful_installation_writes_markers_witness :
  In (System (pip_command (sample_env "abc123" 0 0)) 0)
     (events (sample_env "abc123" 0 0) 0 (marked "old") ["app"])
  /\ exists written : string,
       file_contents (temp_after (sample_env "abc123" 0 0) 0 (marked "old") ["app"])
         ".git_last_commit" = Some written
       /\ clean_start written = true /\ clean_end written = true.
Proof.
  assert (Hin : In (System (pip_command (sample_env "abc123" 0 0)) 0)
                   (events (sample_env "abc123" 0 0) 0 (marked "old") ["app"])).
  { vm_compute. repeat first [left; reflexivity | right]. }
  split; [exact Hin|].
  destruct (successful_installation_writes_markers
              (sample_env "abc123" 0 0) 0 (marked "old") ["app"] Hin)
    as (pipe & written & _ & _ & Hrevision & Hstart & Hend & _).
  exists written. split; [exact Hrevision|]. split; [exact Hstart | exact Hend].
Defined.

(** C5 as stated fails: when the revision probe prints two lines, the
    Revision Marker written after a successful installation holds two
    lines. *)
Lemma two_line_answer_leaves_two_line_marker :
  In (System (pip_command two_line_env) 0) (events two_line_env 0 None ["app"])
  /\ file_contents (temp_after two_line_env 0 None ["app"]) ".git_last_commit"
     = Some ("abc" +:+ nl +:+ "def")
  /\ one_line ("abc" +:+ nl +:+ "def") = false.
Proof.
  split; [vm_compute; repeat first [left; reflexivity | right]|].
  split; vm_compute; reflexivity.
Qed.

(** C6 as stated fails: with a revision probe that prints the same two
    lines every time, the first run installs with success and writes both
    lines, the second run reads the first line back, finds it different
    from the revision, and installs again. *)
Lemma two_line_revision_installs_twice :
  (forall k, is_present (popen_result two_line_env k "python --version") = true)
  /\ (forall k, popen_result two_line_env k "git rev-parse HEAD"
                = Some ("abc" +:+ nl +:+ "def" +:+ nl))
  /\ In (System (pip_command two_line_env) 0) (events two_line_env 0 None ["app"])
  /\ installer_runs two_line_env
       (events two_line_env (calls_after two_line_env 0 None ["app"])
          (temp_after two_line_env 0 None ["app"]) ["app"]) = 1%nat
  /\ installer_runs two_line_env
       (events two_line_env 0 None ["app"]
        ++ events two_line_env (calls_after two_line_env 0 None ["app"])
             (temp_after two_line_env 0 None ["app"]) ["app"]) = 2%nat.
Proof.
  split; [intros k; reflexivity|]. split; [intros k; reflexivity|].
  split; [vm_compute; repeat first [left; reflexivity | right]|].
  split; vm_compute; reflexivity.
Qed.

(** C7, as the code has it: for every argument list the command line of
    the launch is the interpreter, the script path and then the arguments
    after argument 0, in their order, each copied as it is behind one
    space and nothing else added; the script is launched with that line
    and no other, the installer being the only other command given to
    [system]. *)
Theorem arguments_forwarded_in_order (env : Env) (n : nat)
  (dir : option (gmap string string)) (argv : list string) :
  python_command env argv
  = "python " +:+ python_script env +:+ forwarded_suffix (drop 1 argv)
  /\ (forall before arg after,
        drop 1 argv = before ++ arg :: after ->
        python_command env argv
        = ("python " +:+ python_script env +:+ forwarded_suffix before)
          +:+ " " +:+ arg +:+ forwarded_suffix after)
  /\ (forall cmd status,
        In (System cmd status) (events env n dir argv) ->
        cmd = pip_command env \/ cmd = python_command env argv).
Proof.
  split; [now rewrite python_command_shape, append_assoc|].
  split.
  - intros before arg after Hargs.
    rewrite python_command_shape, Hargs, forwarded_suffix_app. simpl.
    now rewrite !append_assoc.
  - explore_commands; intros cmd status Hin; event_cases Hin;
      injection Hin as <- _; first [now left | now right].
Qed.
